(** * Shallow embedding of the agentic SQL assistant workflow

    Sources: [src/sql_assistant/agent.py] (tools, graph nodes, routing
    functions, graph compilation with [interrupt_before=["human_approval"]])
    and [src/sql_assistant/api.py] (the [/chat] and [/approval] endpoints,
    [execute_query_locally], [process_run]). *)

From Stdlib Require Import String Ascii List Arith Lia Bool.
Import ListNotations.
Open Scope string_scope.

(** ** Messages (langchain_core.messages) *)

Record ToolCall := mkToolCall { tc_name : string; tc_arg : string }.

Inductive message :=
| HumanMessage (content : string)
| AIMessage (content : string) (tool_calls : list ToolCall)
| ToolMessage (name : string) (content : string)
| SystemMessage (content : string).

Definition content (m : message) : string :=
  match m with
  | HumanMessage c | AIMessage c _ | ToolMessage _ c | SystemMessage c => c
  end.

(** [hasattr(m, "tool_calls") and m.tool_calls]: only an [AIMessage] has the
    attribute; an empty list is falsy. *)
Definition has_tool_calls (m : message) : bool :=
  match m with
  | AIMessage _ (_ :: _) => true
  | _ => false
  end.

Definition nl : string := String (ascii_of_nat 10) "".

(** Graph nodes and the targets of conditional edges ([END] is terminal). *)
Inductive node := agent | tools | human_approval.

Inductive target := To (n : node) | END.

Definition node_eqb (a b : node) : bool :=
  match a, b with
  | agent, agent | tools, tools | human_approval, human_approval => true
  | _, _ => false
  end.

Definition execute_tool_name : string := "execute_postgres_query".
Definition load_skill_name : string := "load_skill".
Definition system_flag : string := "<SYSTEM:".

(** [messages[-1]] / [messages[-2]] are read on the reversed log; an empty log
    makes [messages[-1]] raise [IndexError], modelled as [None]. *)

(** ** Routing policy (agent.py, create_agent_graph) *)

Definition should_continue (messages : list message) : option target :=
  match rev messages with
  | [] => None
  | last_message :: older =>
      if has_tool_calls last_message then Some (To tools)
      else match older with
           | ToolMessage name _ :: _ =>
               if String.eqb name execute_tool_name then Some END
               else Some (To human_approval)
           | _ => Some (To human_approval)
           end
  end.

Definition route_tool_output (messages : list message) : option target :=
  match rev messages with
  | [] => None
  | ToolMessage name _ :: _ =>
      if String.eqb name execute_tool_name then Some END else Some (To agent)
  | _ :: _ => Some (To agent)
  end.

Definition check_approval_outcome (messages : list message) : option target :=
  match rev messages with
  | [] => None
  | HumanMessage c :: _ =>
      if String.prefix system_flag c then Some END else Some (To agent)
  | _ :: _ => Some END
  end.

Definition route (n : node) : list message -> option target :=
  match n with
  | agent => should_continue
  | tools => route_tool_output
  | human_approval => check_approval_outcome
  end.

(** ** String helpers (Python [str.join], [str.strip], [str(n)]) *)

Fixpoint join (sep : string) (xs : list string) : string :=
  match xs with
  | [] => ""
  | [x] => x
  | x :: rest => x ++ sep ++ join sep rest
  end.

(** Python [str.isspace] on ASCII: \t \n \x0b \x0c \r, \x1c-\x1f and space. *)
Definition is_space (a : ascii) : bool :=
  let n := nat_of_ascii a in
  ((9 <=? n) && (n <=? 13))%nat || ((28 <=? n) && (n <=? 32))%nat.

Fixpoint drop_spaces (l : list ascii) : list ascii :=
  match l with
  | [] => []
  | a :: l' => if is_space a then drop_spaces l' else l
  end.

Definition strip (s : string) : string :=
  string_of_list_ascii
    (rev (drop_spaces (rev (drop_spaces (list_ascii_of_string s))))).

Fixpoint digits_aux (fuel n : nat) (acc : string) : string :=
  match fuel with
  | 0 => acc
  | S f =>
      let acc' := String (ascii_of_nat (48 + n mod 10)%nat) acc in
      if (n <? 10)%nat then acc' else digits_aux f (n / 10) acc'
  end.

Definition nat_to_string (n : nat) : string := digits_aux (S n) n "".

(** ** Tools (agent.py) *)

(** What the database driver does with one query: it raises (with the
    message [str(e)]), or it succeeds with [cursor.description] (the column
    names, absent for statements without a result set) and
    [cursor.fetchall()] (each cell already rendered by [str]). *)
Inductive db_result :=
| DbError (e : string)
| DbOk (description : option (list string)) (rows : list (list string)).

Definition format_row (row : list string) : string :=
  "| " ++ join " | " row ++ " |".

Definition table_header (columns : list string) : string :=
  "| " ++ join " | " columns ++ " |".

Definition table_separator (columns : list string) : string :=
  "| " ++ join " | " (map (fun _ => "---") columns) ++ " |".

Definition more_rows_line (results : list (list string)) : list string :=
  if (10 <? length results)%nat
  then ["... (" ++ nat_to_string (length results - 10)%nat ++ " more rows)"]
  else [].

Definition execute_postgres_query (r : db_result) : string :=
  match r with
  | DbError e => "Error executing query: " ++ e
  | DbOk description rows =>
      (* [if cursor.description:]: the description is [None] or a tuple
         of columns, and the empty tuple (a result without columns) is
         false. *)
      let '(columns, results) :=
        match description with
        | Some ((_ :: _) as cols) => (cols, rows)
        | _ => ([], [])
        end in
      match results with
      | [] => "Query executed successfully per row count: 0"
      | _ =>
          join nl ([table_header columns; table_separator columns]
                   ++ map format_row (firstn 10 results)
                   ++ more_rows_line results)
      end
  end.

(** What [repo.get_skill(skill_name)] gives [load_skill]: it raises an
    exception (whose [str] is [e]), or it returns a skill, of which only
    [skill.get("content")] is read, or [None]. *)
Inductive skill_lookup :=
| SkillRaised (e : string)
| SkillReturned (content : option string).

(** [load_skill]: [skill.get("content")] must be a non-empty string; an
    exception is caught and reported as ["Error loading skill: {e}"]. *)
Definition load_skill (skill : skill_lookup) (skill_name : string) : string :=
  match skill with
  | SkillRaised e => "Error loading skill: " ++ e
  | SkillReturned (Some (String _ _ as c)) => c
  | SkillReturned _ => "Skill '" ++ skill_name ++ "' not found."
  end.

(** langgraph's [ToolNode(tools=[load_skill, execute_postgres_query])]: one
    [ToolMessage] per tool call of the last [AIMessage], in call order, named
    after the requested tool; an unknown name yields the error template as
    content. A last message that is not an [AIMessage] raises. *)
Definition invalid_tool_error (name : string) : string :=
  "Error: " ++ name ++ " is not a valid tool, try one of [load_skill, "
  ++ "execute_postgres_query].".

Section Tools.
Variable db : string -> db_result.
Variable get_skill : string -> skill_lookup.

Definition invoke_tool (call : ToolCall) : string :=
  if String.eqb (tc_name call) execute_tool_name
  then execute_postgres_query (db (tc_arg call))
  else if String.eqb (tc_name call) load_skill_name
  then load_skill (get_skill (tc_arg call)) (tc_arg call)
  else invalid_tool_error (tc_name call).

Definition tool_node (messages : list message) : option (list message) :=
  match rev messages with
  | AIMessage _ calls :: _ =>
      Some (map (fun c => ToolMessage (tc_name c) (invoke_tool c)) calls)
  | _ => None
  end.
End Tools.

(** ** SQL extraction: [re.search(r"```(?:sql)?(.*?)```", content, re.DOTALL)]
    followed by [match.group(1).strip()], or [content.strip()] when there is
    no match (api.py, [approval] and the auto-execute branch of [chat]). *)

Definition fence : string := "```".

Fixpoint str_drop (n : nat) (s : string) : string :=
  match n, s with
  | 0, _ => s
  | S n', String _ s' => str_drop n' s'
  | S _, EmptyString => EmptyString
  end.

(** [(.*?)```] with DOTALL: the shortest group followed by a fence. *)
Fixpoint lazy_group (s : string) : option string :=
  if String.prefix fence s then Some ""
  else match s with
       | EmptyString => None
       | String a s' => option_map (String a) (lazy_group s')
       end.

(** The pattern anchored at the start of [s]; the optional [sql] is greedy,
    so it is tried first and the engine backtracks to skipping it. *)
Definition match_at (s : string) : option string :=
  if String.prefix fence s then
    let r := str_drop 3 s in
    match (if String.prefix "sql" r then lazy_group (str_drop 3 r) else None) with
    | Some g => Some g
    | None => lazy_group r
    end
  else None.

(** [re.search]: the leftmost starting position that matches. *)
Fixpoint re_search (s : string) : option string :=
  match match_at s with
  | Some g => Some g
  | None =>
      match s with
      | EmptyString => None
      | String _ s' => re_search s'
      end
  end.

Definition extract_sql (content : string) : string :=
  match re_search content with
  | Some group1 => strip group1
  | None => strip content
  end.

(** Whether ``` occurs anywhere in a string. *)
Fixpoint contains_fence (s : string) : bool :=
  String.prefix fence s ||
  match s with
  | EmptyString => false
  | String _ s' => contains_fence s'
  end.


(** ** Skill repository (skills/repository.py) *)

Module SkillRepository.

Record Skill := mkSkill { sk_name : string; sk_description : string; sk_content : string }.

(** The skills folder as [SkillRepository] sees it: whether [skills_dir]
    exists, the names [skills_dir.iterdir()] yields (in its order), whether
    [skills_dir / name] is an existing directory, the text of
    [skills_dir / name / file] when that file exists (read as UTF-8), and
    the exception (its [str]) that [read_text(encoding="utf-8")] raises on
    that file, if any (a [UnicodeDecodeError] on bytes that are not UTF-8,
    a [PermissionError], ...). *)
Record skills_fs := mkSkillsFs {
  dir_exists : bool;
  dir_entries : list string;
  entry_is_dir : string -> bool;
  read_text : string -> string -> option string;
  read_error : string -> string -> option string
}.

(** [list_skills] and [get_skill] below are the values these methods return
    when no read raises. *)

Definition list_skills (fs : skills_fs) : list Skill :=
  if negb (dir_exists fs) then []
  else flat_map
         (fun item =>
            if entry_is_dir fs item && negb (String.prefix "__" item) then
              match read_text fs item "description.txt" with
              | Some description => [mkSkill item (strip description) ""]
              | None => []
              end
            else [])
         (dir_entries fs).

Definition get_skill (fs : skills_fs) (skill_name : string) : option Skill :=
  if negb (entry_is_dir fs skill_name) then None
  else
    match read_text fs skill_name "description.txt",
          read_text fs skill_name "content.md" with
    | Some description, Some content_md =>
        Some (mkSkill skill_name (strip description) (strip content_md))
    | _, _ => None
    end.

Definition get_skill_names (fs : skills_fs) : string :=
  join ", " (map sk_name (list_skills fs)).

(** The exception [get_skill] raises, if any: the files are read only once
    both exist, [description.txt] first (the dict literal's order), then
    [content.md]. *)
Definition get_skill_error (fs : skills_fs) (skill_name : string) : option string :=
  if negb (entry_is_dir fs skill_name) then None
  else
    match read_text fs skill_name "description.txt",
          read_text fs skill_name "content.md" with
    | Some _, Some _ =>
        match read_error fs skill_name "description.txt" with
        | Some e => Some e
        | None => read_error fs skill_name "content.md"
        end
    | _, _ => None
    end.

(** What the [load_skill] tool gets from [repo.get_skill(skill_name)]: the
    exception it raises, or [skill.get("content")] of the skill it returns. *)
Definition skill_content (fs : skills_fs) (skill_name : string) : skill_lookup :=
  match get_skill_error fs skill_name with
  | Some e => SkillRaised e
  | None => SkillReturned (option_map sk_content (get_skill fs skill_name))
  end.

End SkillRepository.

(** ** Console session (main.py, [run_interactive_session]) *)

(** Python [str.upper] on ASCII. *)
Definition ascii_upper (a : ascii) : ascii :=
  let n := nat_of_ascii a in
  if ((97 <=? n) && (n <=? 122))%nat then ascii_of_nat (n - 32) else a.

Fixpoint upper (s : string) : string :=
  match s with
  | EmptyString => EmptyString
  | String a s' => String (ascii_upper a) (upper s')
  end.

(** The query the console executes on approval, and whether it prints
    "Warning: No SQL code block found. ..." first. *)
Definition cli_extract_sql (content : string) : string * bool :=
  match re_search content with
  | Some group1 => (strip group1, false)
  | None =>
      let candidate := strip content in
      let upper_candidate := upper candidate in
      if String.prefix "SELECT" upper_candidate || String.prefix "WITH" upper_candidate
      then (candidate, false)
      else (candidate, true)
  end.

(** [c * n] for a one-character string [c]. *)
Fixpoint repeat_char (c : ascii) (n : nat) : string :=
  match n with
  | 0 => EmptyString
  | S k => String c (repeat_char c k)
  end.

(** [s.ljust(width)]. *)
Definition ljust (s : string) (width : nat) : string :=
  s ++ repeat_char " " (width - String.length s).

(** [for i, cell_str in enumerate(str_row): col_widths[i] = max(col_widths[i],
    len(cell_str))]; a row with more cells than widths raises [IndexError]
    ([None]). *)
Fixpoint widen (col_widths : list nat) (str_row : list string) : option (list nat) :=
  match str_row, col_widths with
  | [], _ => Some col_widths
  | cell_str :: row', w :: ws =>
      option_map (cons (Nat.max w (String.length cell_str))) (widen ws row')
  | _ :: _, [] => None
  end.

Fixpoint widen_rows (col_widths : list nat) (results : list (list string))
  : option (list nat) :=
  match results with
  | [] => Some col_widths
  | row :: rest =>
      match widen col_widths row with
      | Some ws => widen_rows ws rest
      | None => None
      end
  end.

(** [zip(row, col_widths)] with each cell [ljust]-ed to its width. *)
Fixpoint zip_ljust (row : list string) (col_widths : list nat) : list string :=
  match row, col_widths with
  | cell :: row', w :: ws => ljust cell w :: zip_ljust row' ws
  | _, _ => []
  end.

(** The [lines] the console prints for a non-empty result (each cell
    already rendered by [str]). *)
Definition cli_table (columns : list string) (results : list (list string))
  : option (list string) :=
  match widen_rows (map String.length columns) results with
  | None => None
  | Some col_widths =>
      let header := join " | " (zip_ljust columns col_widths) in
      let separator := join "-+-" (map (repeat_char "-") col_widths) in
      Some (["";
             (repeat_char "=" 33 ++ " Execution Result " ++ repeat_char "=" 33)%string;
             header; separator]
            ++ map (fun row => join " | " (zip_ljust row col_widths)) results)%list
  end.


(** ** Workflow engine: the compiled LangGraph [StateGraph(AgentState)]

    The state is the message log, merged with [operator.add] (append-only);
    a checkpoint also records the pending node ([snapshot.next]). *)

Record checkpoint := mkCheckpoint { messages : list message; next : option node }.

Inductive run_status := Finished | Interrupted | Raised | RecursionLimitHit.

(** The outcome of one [graph.stream(...)]: its status, the last committed
    checkpoint, and the nodes executed, each with the log it was given. *)
Record run_result := mkRun {
  rr_status : run_status;
  rr_state : checkpoint;
  rr_trace : list (node * list message)
}.

(** The repository passes no [recursion_limit] in the run config, so
    langgraph's default applies: 10007 in langgraph 1.2.15 (releases before
    1.0 used 25). *)
Definition recursion_limit : nat := 10007.

Definition is_waiting (c : checkpoint) : bool :=
  match next c with
  | Some human_approval => true
  | _ => false
  end.

Definition system_completion_msg : string := "<SYSTEM: Execution Completed Locally>".
Definition rejected_prefix : string := "Rejected. Feedback: ".

Section Engine.
(** The model client bound to the tools: it receives the system prompt
    followed by the log and answers with a text and tool calls. *)
Variable llm : list message -> string * list ToolCall.
Variable system_prompt : string.
Variable db : string -> db_result.
Variable get_skill : string -> skill_lookup.

Definition agent_node (msgs : list message) : list message :=
  let '(c, calls) := llm (SystemMessage system_prompt :: msgs) in
  [AIMessage c calls].

(** [human_approval_node] is a pass-through: it writes nothing. *)
Definition run_node (n : node) (msgs : list message) : option (list message) :=
  match n with
  | agent => Some (agent_node msgs)
  | tools => tool_node db get_skill msgs
  | human_approval => Some []
  end.

(** [compile(..., interrupt_before=["human_approval"])] *)
Definition interrupt_before (n : node) : bool := node_eqb n human_approval.

(** One run: before each node the interrupt is checked (skipped for the
    first node of a resumed run), the node's output is appended, and the
    node's conditional edge picks the next node or [END]. *)
Fixpoint run (fuel : nat) (resuming : bool) (n : node) (msgs : list message)
  : run_result :=
  match fuel with
  | 0 => mkRun RecursionLimitHit (mkCheckpoint msgs (Some n)) []
  | S f =>
      if interrupt_before n && negb resuming
      then mkRun Interrupted (mkCheckpoint msgs (Some n)) []
      else
        match run_node n msgs with
        | None => mkRun Raised (mkCheckpoint msgs (Some n)) [(n, msgs)]
        | Some out =>
            let msgs' := (msgs ++ out)%list in
            match route n msgs' with
            | None => mkRun Raised (mkCheckpoint msgs (Some n)) [(n, msgs)]
            | Some END => mkRun Finished (mkCheckpoint msgs' None) [(n, msgs)]
            | Some (To m) =>
                let r := run f false m msgs' in
                mkRun (rr_status r) (rr_state r) ((n, msgs) :: rr_trace r)
            end
        end
  end.

(** [graph.stream(inputs, config)]: new input starts at [START -> agent];
    [None] resumes the pending node, or does nothing when none is pending. *)
Definition stream (c : checkpoint) (inputs : option (list message)) : run_result :=
  match inputs with
  | Some input => run recursion_limit false agent ((messages c ++ input)%list)
  | None =>
      match next c with
      | Some n => run recursion_limit true n (messages c)
      | None => mkRun Finished c []
      end
  end.

(** [graph.update_state(config, {"messages": values})] as the program
    calls it: only on a thread waiting at the approval interrupt
    ([is_waiting]; [chat] and [approval] check it, and the auto-execute
    branch of [chat] updates a run that stopped there). langgraph credits
    the write to the node that wrote last, which there is [agent] (the only
    node routing to [human_approval]; the program's own updates are then
    credited to [agent] too), so [should_continue] recomputes the pending
    node. At other checkpoints (after [tools], say) langgraph would run
    another node's edge; the program never updates those. *)
Definition update_state (c : checkpoint) (values : list message) : checkpoint :=
  let msgs' := (messages c ++ values)%list in
  mkCheckpoint msgs'
    (match should_continue msgs' with
     | Some (To n) => Some n
     | _ => None
     end).

(** Resuming a suspended thread with a payload, as api.py does it. *)
Definition resume_with (c : checkpoint) (payload : list message) : run_result :=
  stream (update_state c payload) None.

(** ** Turn orchestrator (api.py) *)

Definition execute_query_locally (r : db_result)
  : string * option (list string * list (list string)) * option string :=
  match r with
  | DbError e => ("Error executing query: " ++ e, None, Some e)
  | DbOk description rows =>
      (* [if cursor.description:]: the description is [None] or a tuple
         of columns, and the empty tuple (a result without columns) is
         false. *)
      let '(columns, results) :=
        match description with
        | Some ((_ :: _) as cols) => (cols, rows)
        | _ => ([], [])
        end in
      match results with
      | [] => ("[Execution Result]: No results found.", None, None)
      | _ =>
          (join nl ([table_header columns; table_separator columns]
                    ++ map format_row results),
           Some (columns, results), None)
      end
  end.

Record ChatResponse := mkResponse {
  response : string;
  status : string;
  structured_data : option (list string * list (list string));
  query : option string
}.

(** What an endpoint answers: a response body, an [HTTPException], or an
    uncaught exception (HTTP 500). *)
Inductive api_result :=
| Reply (r : ChatResponse)
| HTTPException (status_code : nat) (detail : string)
| ServerError.

Definition process_run (r : run_result) : api_result :=
  match rr_status r with
  | Raised | RecursionLimitHit => ServerError
  | _ =>
      let snapshot := rr_state r in
      let st := if is_waiting snapshot then "approval_required" else "done" in
      match rev (messages snapshot) with
      | [] => Reply (mkResponse "Error: No state found." "done" None None)
      | last_message :: _ => Reply (mkResponse (content last_message) st None None)
      end
  end.

(** [chat], lines 179-184: what is written before the run, and its input. *)
Definition chat_prepare (c : checkpoint) (text : string)
  : checkpoint * option (list message) :=
  if is_waiting c
  then (update_state c [HumanMessage (rejected_prefix ++ text)], None)
  else (c, Some [HumanMessage text]).

(** [text] is [request.message]. *)
Definition chat (c : checkpoint) (text : string) (auto_execute : bool)
  : api_result * checkpoint :=
  let '(c1, inputs) := chat_prepare c text in
  let r := stream c1 inputs in
  let c2 := rr_state r in
  match process_run r with
  | Reply resp =>
      if auto_execute && String.eqb (status resp) "approval_required" then
        let q := extract_sql (response resp) in
        let '(result_text, data, error) := execute_query_locally (db q) in
        match error with
        | Some e =>
            (Reply (mkResponse ("Error executing query (Auto-Mode): " ++ e)
                               "done" None (Some q)), c2)
        | None =>
            let r2 := stream (update_state c2 [HumanMessage system_completion_msg]) None in
            match rr_status r2 with
            | Raised | RecursionLimitHit =>
                (* the exception text [str(e)] is not modelled *)
                (Reply (mkResponse "System Error during auto-execution: " "done" None None),
                 rr_state r2)
            | _ =>
                (Reply (mkResponse ("**Auto Execution Result**:" ++ nl ++ nl ++ result_text)
                                   "done" data (Some q)), rr_state r2)
            end
        end
      else (Reply resp, c2)
  | other => (other, c2)
  end.

Definition approval (c : checkpoint) (decision : string) (feedback : option string)
  : api_result * checkpoint :=
  if negb (is_waiting c)
  then (HTTPException 400 "Conversation is not waiting for approval.", c)
  else if String.eqb decision "approve" then
    match rev (messages c) with
    | [] => (ServerError, c)
    | last_msg :: _ =>
        let q := extract_sql (content last_msg) in
        let '(result_text, data, error) := execute_query_locally (db q) in
        match error with
        | Some e => (Reply (mkResponse ("Error executing query: " ++ e) "done" None (Some q)), c)
        | None =>
            let r := stream (update_state c [HumanMessage system_completion_msg]) None in
            match rr_status r with
            | Raised | RecursionLimitHit => (ServerError, rr_state r)
            | _ =>
                (Reply (mkResponse ("**Execution Result**:" ++ nl ++ nl ++ result_text)
                                   "done" data (Some q)), rr_state r)
            end
        end
    end
  else
    let fb := match feedback with
              | None | Some EmptyString => "Rejected."
              | Some f => f
              end in
    let r := stream (update_state c [HumanMessage (rejected_prefix ++ fb)]) None in
    (process_run r, rr_state r).
End Engine.

(** ** Auxiliary definitions used to state the properties *)

(** Whether the last tool call of an [AIMessage] requests
    [execute_postgres_query]; its result is the last message [ToolNode]
    appends. *)
Definition last_call_is_execute (calls : list ToolCall) : bool :=
  match rev calls with
  | call :: _ => String.eqb (tc_name call) execute_tool_name
  | [] => false
  end.



(** The feedback [approval] writes: [request.feedback or "Rejected."]. *)
Definition feedback_text (feedback : option string) : string :=
  match feedback with
  | None | Some EmptyString => "Rejected."
  | Some f => f
  end.

(** A concrete environment for the examples: a model client that always
    answers one text without tool calls, a database that always gives one
    result, and an empty skill repository. *)
Definition sample_llm (reply : string) : list message -> string * list ToolCall :=
  fun _ => (reply, []).

Definition sample_db (r : db_result) : string -> db_result := fun _ => r.

Definition no_skills : string -> skill_lookup := fun _ => SkillReturned None.

(** Messages only a graph node writes: the agent's replies and the tool
    results. *)
Definition graph_written (m : message) : bool :=
  match m with
  | AIMessage _ _ | ToolMessage _ _ => true
  | _ => false
  end.

Definition last_is_ai (msgs : list message) : bool :=
  match rev msgs with
  | AIMessage _ _ :: _ => true
  | _ => false
  end.

(** A checkpoint whose pending node can run: the tool node needs an
    [AIMessage] last, the approval node a non-empty log. *)
Definition resumable (c : checkpoint) : bool :=
  match next c with
  | Some tools => last_is_ai (messages c)
  | Some human_approval =>
      match messages c with [] => false | _ => true end
  | _ => true
  end.

(** The character list [strip] works on. *)
Definition strip_list (l : list ascii) : list ascii :=
  rev (drop_spaces (rev (drop_spaces l))).

(** A skills folder for the examples: [sales_analytics] is complete,
    [__pycache__] is skipped by the listing, [drafts] has a blank
    [content.md], [notes] has no [content.md], and the [content.md] of
    [legacy] is not UTF-8. *)
Definition sample_fs : SkillRepository.skills_fs :=
  SkillRepository.mkSkillsFs true
    ["sales_analytics"; "__pycache__"; "drafts"; "notes"; "legacy"]
    (fun n => String.eqb n "sales_analytics" || String.eqb n "__pycache__"
              || String.eqb n "drafts" || String.eqb n "notes"
              || String.eqb n "legacy")
    (fun n f =>
       if String.eqb f "description.txt" then
         if String.eqb n "sales_analytics" then Some (" Sales tables " ++ nl)
         else if String.eqb n "__pycache__" then Some "cache"
         else if String.eqb n "drafts" then Some "Drafts"
         else if String.eqb n "notes" then Some "Notes"
         else if String.eqb n "legacy" then Some "Legacy"
         else None
       else if String.eqb f "content.md" then
         if String.eqb n "sales_analytics" then Some ("# orders" ++ nl)
         else if String.eqb n "drafts" then Some ("  " ++ nl)
         else if String.eqb n "legacy" then Some "caf?"
         else None
       else None)
    (fun n f =>
       if String.eqb n "legacy" && String.eqb f "content.md"
       then Some ("'utf-8' codec can't decode byte 0xe9 in position 3: "
                  ++ "unexpected end of data")
       else None).

(** * Properties *)

Example extract_sql_tagged :
  extract_sql ("Here:" ++ nl ++ "```sql" ++ nl ++ "SELECT 1;" ++ nl ++ "```" ++ nl ++ "ok")
  = "SELECT 1;".
Proof. reflexivity. Qed.

Example extract_sql_plain : extract_sql "  SELECT 2  " = "SELECT 2".
Proof. reflexivity. Qed.

Example nat_to_string_125 : nat_to_string 125 = "125".
Proof. reflexivity. Qed.

(** ** General facts about the log and the run *)

Lemma rev_snoc {A} (l : list A) (x : A) : rev (l ++ [x]) = x :: rev l.
Proof. apply rev_unit. Qed.

Lemma route_to_approval_from_agent (n : node) (msgs : list message) :
  route n msgs = Some (To human_approval) -> n = agent.
Proof.
  destruct n; simpl; [reflexivity| |]; unfold route_tool_output, check_approval_outcome;
    destruct (rev msgs) as [|m r]; try discriminate;
    destruct m; try discriminate;
    try (destruct (String.eqb _ _); discriminate);
    try (destruct (String.prefix _ _); discriminate).
Qed.

Lemma should_continue_approval_no_calls (msgs : list message) (c : string)
  (calls : list ToolCall) :
  should_continue (msgs ++ [AIMessage c calls]) = Some (To human_approval) ->
  calls = [].
Proof.
  unfold should_continue. rewrite rev_snoc. destruct calls; [reflexivity|].
  simpl. discriminate.
Qed.

Section RunFacts.
Variable llm : list message -> string * list ToolCall.
Variable system_prompt : string.
Variable db : string -> db_result.
Variable get_skill : string -> skill_lookup.

Abbreviation runM := (run llm system_prompt db get_skill).
Abbreviation streamM := (stream llm system_prompt db get_skill).

Lemma run_S (f : nat) (r : bool) (n : node) (msgs : list message) :
  runM (S f) r n msgs =
  if interrupt_before n && negb r
  then mkRun Interrupted (mkCheckpoint msgs (Some n)) []
  else
    match run_node llm system_prompt db get_skill n msgs with
    | None => mkRun Raised (mkCheckpoint msgs (Some n)) [(n, msgs)]
    | Some out =>
        match route n (msgs ++ out)%list with
        | None => mkRun Raised (mkCheckpoint msgs (Some n)) [(n, msgs)]
        | Some END => mkRun Finished (mkCheckpoint (msgs ++ out)%list None) [(n, msgs)]
        | Some (To m) =>
            let r' := runM f false m (msgs ++ out)%list in
            mkRun (rr_status r') (rr_state r') ((n, msgs) :: rr_trace r')
        end
    end.
Proof. reflexivity. Qed.

(** The limit allows at least two steps. *)
Lemma recursion_limit_SS : exists k, recursion_limit = S (S k).
Proof. exists (recursion_limit - 2)%nat. reflexivity. Qed.

(** A node that is not interrupted is the first one the run executes. *)
Lemma run_trace_head (f : nat) (r : bool) (n : node) (msgs : list message) :
  interrupt_before n && negb r = false ->
  exists rest, rr_trace (runM (S f) r n msgs) = (n, msgs) :: rest.
Proof.
  intros Hi. simpl. rewrite Hi.
  destruct (run_node llm system_prompt db get_skill n msgs) as [out|];
    [|eexists; reflexivity].
  destruct (route n (msgs ++ out)%list) as [[m|]|]; simpl; eexists; reflexivity.
Qed.

(** An interrupted run either stopped before its very first node, or it
    stopped right after an [agent] step whose reply (the last message, with
    no tool calls) routed to [human_approval]. *)
Lemma run_interrupted (fuel : nat) (r : bool) (n : node) (msgs : list message) :
  rr_status (runM fuel r n msgs) = Interrupted ->
  (interrupt_before n && negb r = true
   /\ rr_state (runM fuel r n msgs) = mkCheckpoint msgs (Some n)
   /\ rr_trace (runM fuel r n msgs) = [])
  \/ (next (rr_state (runM fuel r n msgs)) = Some human_approval
      /\ exists pre txt tr,
           messages (rr_state (runM fuel r n msgs)) = (pre ++ [AIMessage txt []])%list
           /\ rr_trace (runM fuel r n msgs) = (tr ++ [(agent, pre)])%list).
Proof.
  revert r n msgs. induction fuel as [|f IH]; intros r n msgs Hst.
  - discriminate.
  - simpl in Hst |- *.
    destruct (interrupt_before n && negb r) eqn:Hi; [left; auto|].
    destruct (run_node llm system_prompt db get_skill n msgs) as [out|] eqn:Hn;
      [|discriminate].
    destruct (route n (msgs ++ out)%list) as [[m|]|] eqn:Hr; try discriminate.
    simpl in Hst |- *. right.
    destruct (IH false m (msgs ++ out)%list Hst) as [[Hm [Hs Ht]]|[Hnext [pre [txt [tr [Hm Ht]]]]]].
    + rewrite Hs, Ht. simpl.
      destruct m; try discriminate. split; [reflexivity|].
      pose proof (route_to_approval_from_agent _ _ Hr) as ->.
      simpl in Hn. unfold agent_node in Hn.
      destruct (llm (SystemMessage system_prompt :: msgs)) as [c calls].
      injection Hn as <-. simpl in Hr.
      apply should_continue_approval_no_calls in Hr. subst calls.
      exists msgs, c, []. split; reflexivity.
    + split; [exact Hnext|]. exists pre, txt, ((n, msgs) :: tr).
      split; [exact Hm|]. rewrite Ht. reflexivity.
Qed.
End RunFacts.

(** ** Routing after the agent node *)

(** C1: with an [AIMessage] last, [should_continue] routes to the tools when
    the message carries tool calls; otherwise it ends the run when the
    second-to-last message is a [ToolMessage] of [execute_postgres_query];
    otherwise it routes to [human_approval]. *)
Theorem should_continue_after_agent (msgs : list message) (c : string)
  (calls : list ToolCall) :
  (calls <> [] -> should_continue (msgs ++ [AIMessage c calls])%list = Some (To tools))
  /\ (calls = [] ->
      (exists pre out, msgs = (pre ++ [ToolMessage execute_tool_name out])%list) ->
      should_continue (msgs ++ [AIMessage c calls])%list = Some END)
  /\ (calls = [] ->
      ~ (exists pre out, msgs = (pre ++ [ToolMessage execute_tool_name out])%list) ->
      should_continue (msgs ++ [AIMessage c calls])%list = Some (To human_approval)).
Proof.
  unfold should_continue. rewrite rev_snoc. split; [|split].
  - intros H. destruct calls; [congruence|reflexivity].
  - intros -> [pre [out ->]]. rewrite rev_snoc. reflexivity.
  - intros -> Hno. simpl.
    destruct (rev msgs) as [|m r] eqn:Hr; [reflexivity|].
    destruct m as [|? ?|name out|]; try reflexivity.
    destruct (String.eqb_spec name execute_tool_name) as [->|]; [|reflexivity].
    exfalso. apply Hno. exists (rev r), out.
    rewrite <- (rev_involutive msgs), Hr. reflexivity.
Qed.

(** ** Routing after the human approval interrupt *)

Section ApprovalRouting.
Variable llm : list message -> string * list ToolCall.
Variable system_prompt : string.
Variable db : string -> db_result.
Variable get_skill : string -> skill_lookup.

Abbreviation streamM := (stream llm system_prompt db get_skill).

Lemma resume_terminal_on_flag (msgs : list message) (t : string) :
  String.prefix system_flag t = true ->
  streamM (mkCheckpoint (msgs ++ [HumanMessage t])%list (Some human_approval)) None
  = mkRun Finished (mkCheckpoint (msgs ++ [HumanMessage t])%list None)
          [(human_approval, (msgs ++ [HumanMessage t])%list)].
Proof.
  intros Hp. unfold stream. destruct recursion_limit_SS as [k Hk]. rewrite Hk.
  cbn [next]. rewrite run_S. cbn -[run]. rewrite app_nil_r.
  unfold check_approval_outcome. rewrite rev_snoc, Hp. reflexivity.
Qed.

Lemma resume_agent_without_flag (msgs : list message) (t : string) :
  String.prefix system_flag t = false ->
  exists rest,
    rr_trace (streamM (mkCheckpoint (msgs ++ [HumanMessage t])%list (Some human_approval)) None)
    = (human_approval, (msgs ++ [HumanMessage t])%list)
      :: (agent, (msgs ++ [HumanMessage t])%list) :: rest.
Proof.
  intros Hp. unfold stream. destruct recursion_limit_SS as [k Hk]. rewrite Hk.
  cbn [next]. rewrite run_S. cbn -[run]. rewrite app_nil_r.
  unfold check_approval_outcome. rewrite rev_snoc, Hp.
  destruct (run_trace_head llm system_prompt db get_skill k false agent
              (msgs ++ [HumanMessage t])%list eq_refl) as [rest Hrest].
  cbn beta iota zeta. cbn [rr_trace]. rewrite Hrest. eexists; reflexivity.
Qed.

(** A message other than a [HumanMessage] ends a resumed run. *)
Lemma resume_terminal_non_user (msgs : list message) (m : message) :
  (forall t, m <> HumanMessage t) ->
  streamM (mkCheckpoint (msgs ++ [m])%list (Some human_approval)) None
  = mkRun Finished (mkCheckpoint (msgs ++ [m])%list None)
          [(human_approval, (msgs ++ [m])%list)].
Proof.
  intros Hm. unfold stream. destruct recursion_limit_SS as [k Hk]. rewrite Hk.
  cbn [next]. rewrite run_S. cbn -[run]. rewrite app_nil_r.
  unfold check_approval_outcome. rewrite rev_snoc.
  destruct m as [t| | |]; [exfalso; exact (Hm t eq_refl)|reflexivity..].
Qed.

(** C4: a thread suspended at [human_approval] whose log ends with a
    [HumanMessage] is resumed to a terminal end when the text starts with
    ["<SYSTEM:"] (the approval node is the only one executed), and into the
    agent node otherwise. *)
Theorem resume_with_user_message (msgs : list message) (t : string) :
  let L := (msgs ++ [HumanMessage t])%list in
  (String.prefix system_flag t = true ->
   streamM (mkCheckpoint L (Some human_approval)) None
   = mkRun Finished (mkCheckpoint L None) [(human_approval, L)])
  /\ (String.prefix system_flag t = false ->
      exists rest,
        rr_trace (streamM (mkCheckpoint L (Some human_approval)) None)
        = (human_approval, L) :: (agent, L) :: rest).
Proof.
  intros L. split.
  - apply resume_terminal_on_flag.
  - apply resume_agent_without_flag.
Qed.
End ApprovalRouting.

(** ** Routing after the tool node *)

Section ToolRouting.
Variable llm : list message -> string * list ToolCall.
Variable system_prompt : string.
Variable db : string -> db_result.
Variable get_skill : string -> skill_lookup.

Abbreviation runM := (run llm system_prompt db get_skill).
Abbreviation streamM := (stream llm system_prompt db get_skill).

(** C2 (as amended): after the tool node has answered the calls of the last
    [AIMessage], the run ends at once, with no further node executed, when
    the last call (hence the last [ToolMessage]) is [execute_postgres_query];
    otherwise the next node executed is [agent]. *)
Theorem tool_node_then_route (msgs : list message) (c : string)
  (calls : list ToolCall) (f : nat) (r : bool) :
  let L := (msgs ++ [AIMessage c calls])%list in
  let out := map (fun call => ToolMessage (tc_name call) (invoke_tool db get_skill call)) calls in
  (last_call_is_execute calls = true ->
   runM (S f) r tools L = mkRun Finished (mkCheckpoint (L ++ out)%list None) [(tools, L)])
  /\ (last_call_is_execute calls = false ->
      exists rest, rr_trace (runM (S (S f)) r tools L)
                   = (tools, L) :: (agent, (L ++ out)%list) :: rest).
Proof.
  intros L out.
  assert (Hn : run_node llm system_prompt db get_skill tools L = Some out)
    by (cbn; unfold tool_node, L; rewrite rev_snoc; reflexivity).
  assert (Hrev : rev (L ++ out)%list = (rev out ++ AIMessage c calls :: rev msgs)%list)
    by (unfold L; rewrite rev_app_distr, rev_snoc; reflexivity).
  assert (Hout : rev out = map (fun call => ToolMessage (tc_name call)
                                   (invoke_tool db get_skill call)) (rev calls))
    by (unfold out; rewrite map_rev; reflexivity).
  assert (Hroute : route_tool_output (L ++ out)%list =
            if last_call_is_execute calls then Some END else Some (To agent)).
  { unfold route_tool_output, last_call_is_execute. rewrite Hrev, Hout.
    destruct (rev calls) as [|call rc]; simpl; [reflexivity|].
    destruct (String.eqb (tc_name call) execute_tool_name); reflexivity. }
  split; intros He; rewrite He in Hroute; rewrite run_S;
    cbn [interrupt_before node_eqb andb negb]; rewrite Hn; cbn [route];
    rewrite Hroute; cbn beta iota zeta.
  - reflexivity.
  - destruct (run_trace_head llm system_prompt db get_skill f false agent
                (L ++ out)%list eq_refl) as [rest Hrest].
    cbn [rr_trace]. rewrite Hrest. eexists; reflexivity.
Qed.

(** C3 (as amended): a run that stops at the approval interrupt commits the
    pending node [human_approval]; the log ends with the [AIMessage] the
    last executed node, [agent], produced, and that message has no tool
    calls. *)
Theorem interrupt_commits_agent_reply (c : checkpoint) (inputs : option (list message)) :
  let r := streamM c inputs in
  rr_status r = Interrupted ->
  next (rr_state r) = Some human_approval
  /\ exists pre txt tr,
       messages (rr_state r) = (pre ++ [AIMessage txt []])%list
       /\ rr_trace r = (tr ++ [(agent, pre)])%list.
Proof.
  intros r Hst. unfold r, stream in *.
  destruct inputs as [input|].
  - destruct (run_interrupted llm system_prompt db get_skill _ _ _ _ Hst)
      as [[Hi _]|H]; [discriminate|exact H].
  - destruct (next c) as [n|]; [|discriminate].
    destruct (run_interrupted llm system_prompt db get_skill _ _ _ _ Hst)
      as [[Hi _]|H]; [|exact H].
    rewrite andb_false_r in Hi. discriminate.
Qed.
End ToolRouting.

(** ** The turn orchestrator *)

Lemma update_after_agent_reply (msgs : list message) (txt : string)
  (calls : list ToolCall) (nx : option node) (t : string) :
  update_state (mkCheckpoint (msgs ++ [AIMessage txt calls])%list nx) [HumanMessage t]
  = mkCheckpoint ((msgs ++ [AIMessage txt calls]) ++ [HumanMessage t])%list
                 (Some human_approval).
Proof.
  unfold update_state, should_continue. cbn [messages].
  rewrite rev_snoc, rev_snoc. reflexivity.
Qed.

Lemma prefix_flag_rejected (s : string) :
  String.prefix system_flag (rejected_prefix ++ s) = false.
Proof. reflexivity. Qed.

Lemma execute_query_locally_ok (desc : option (list string)) (rows : list (list string)) :
  snd (execute_query_locally (DbOk desc rows)) = None.
Proof. destruct desc as [[|c cols]|]; [|destruct rows|]; reflexivity. Qed.

Section Orchestrator.
Variable llm : list message -> string * list ToolCall.
Variable system_prompt : string.
Variable db : string -> db_result.
Variable get_skill : string -> skill_lookup.

Abbreviation streamM := (stream llm system_prompt db get_skill).
Abbreviation resume_withM := (resume_with llm system_prompt db get_skill).
Abbreviation approvalM := (approval llm system_prompt db get_skill).

(** The approve branch of [approval] on a thread whose log ends with the
    proposed [AIMessage]. *)
Lemma approve_branch (msgs : list message) (txt : string) (calls : list ToolCall)
  (fb : option string) :
  let c := mkCheckpoint (msgs ++ [AIMessage txt calls])%list (Some human_approval) in
  let q := extract_sql txt in
  approvalM c "approve" fb =
  match execute_query_locally (db q) with
  | (_, _, Some e) => (Reply (mkResponse ("Error executing query: " ++ e) "done" None (Some q)), c)
  | (result_text, data, None) =>
      (Reply (mkResponse ("**Execution Result**:" ++ nl ++ nl ++ result_text)
                         "done" data (Some q)),
       mkCheckpoint (messages c ++ [HumanMessage system_completion_msg])%list None)
  end.
Proof.
  intros c q. subst c q. unfold approval. cbn [is_waiting next negb messages].
  change (String.eqb "approve" "approve") with true. cbv iota beta.
  rewrite rev_snoc. cbn [content].
  destruct (execute_query_locally (db (extract_sql txt))) as [[result_text data] [e|]];
    [reflexivity|].
  rewrite update_after_agent_reply.
  rewrite (resume_terminal_on_flag llm system_prompt db get_skill _
             system_completion_msg eq_refl).
  reflexivity.
Qed.

(** C5 (as amended): [approval] on a thread with no pending approval is
    rejected with HTTP 400 and leaves the checkpoint as it was; resuming a
    thread with nothing pending runs nothing and changes nothing; but a
    resume whose latest message is not a [HumanMessage] is not rejected:
    it ends the run. *)
Theorem invalid_resume_outcomes (c : checkpoint) (decision : string)
  (feedback : option string) (msgs : list message) (m : message) :
  (is_waiting c = false ->
   approvalM c decision feedback
   = (HTTPException 400 "Conversation is not waiting for approval.", c))
  /\ (next c = None -> streamM c None = mkRun Finished c [])
  /\ ((forall t, m <> HumanMessage t) ->
      streamM (mkCheckpoint (msgs ++ [m])%list (Some human_approval)) None
      = mkRun Finished (mkCheckpoint (msgs ++ [m])%list None)
              [(human_approval, (msgs ++ [m])%list)]).
Proof.
  split; [|split].
  - intros Hw. unfold approval. rewrite Hw. reflexivity.
  - intros Hn. unfold stream. rewrite Hn. reflexivity.
  - apply resume_terminal_non_user.
Qed.

(** C6 (as amended): on a thread suspended after the agent's proposal, a
    resume with a [HumanMessage] starting with ["<SYSTEM:"] ends the run
    with the log kept and only that message appended; the approve branch
    of [approval], when the query runs, ends the turn this way and reports
    the execution result, not the proposal. *)
Theorem approve_closes_turn (msgs : list message) (txt : string)
  (calls : list ToolCall) (fb : option string) (t : string)
  (desc : option (list string)) (rows : list (list string)) :
  let c := mkCheckpoint (msgs ++ [AIMessage txt calls])%list (Some human_approval) in
  (String.prefix system_flag t = true ->
   resume_withM c [HumanMessage t]
   = mkRun Finished (mkCheckpoint (messages c ++ [HumanMessage t])%list None)
           [(human_approval, (messages c ++ [HumanMessage t])%list)])
  /\ (db (extract_sql txt) = DbOk desc rows ->
      approvalM c "approve" fb
      = (Reply (mkResponse ("**Execution Result**:" ++ nl ++ nl
                            ++ fst (fst (execute_query_locally (DbOk desc rows))))
                           "done" (snd (fst (execute_query_locally (DbOk desc rows))))
                           (Some (extract_sql txt))),
         mkCheckpoint (messages c ++ [HumanMessage system_completion_msg])%list None)).
Proof.
  intros c. subst c. split.
  - intros Hp. unfold resume_with. rewrite update_after_agent_reply.
    apply resume_terminal_on_flag. exact Hp.
  - intros Hdb. rewrite approve_branch. rewrite Hdb.
    pose proof (execute_query_locally_ok desc rows) as Hok.
    destruct (execute_query_locally (DbOk desc rows)) as [[result_text data] err].
    cbn in Hok |- *. subst err. reflexivity.
Qed.

(** C7 (as amended): rejecting a pending proposal appends one
    [HumanMessage] ["Rejected. Feedback: " ++ feedback] (["Rejected."] when
    the feedback is absent or empty) and resumes the run, whose next node
    after the approval node is [agent], given that log; the endpoint
    answers with [process_run] of that run. *)
Theorem reject_reenters_agent (msgs : list message) (txt : string)
  (calls : list ToolCall) (decision : string) (fb : option string) :
  let c := mkCheckpoint (msgs ++ [AIMessage txt calls])%list (Some human_approval) in
  let fm := HumanMessage (rejected_prefix ++ feedback_text fb) in
  let L := (messages c ++ [fm])%list in
  let r := resume_withM c [fm] in
  String.eqb decision "approve" = false ->
  approvalM c decision fb = (process_run r, rr_state r)
  /\ exists rest, rr_trace r = (human_approval, L) :: (agent, L) :: rest.
Proof.
  intros c fm L r Hd. split.
  - unfold approval, c. cbn [is_waiting next negb]. rewrite Hd. reflexivity.
  - unfold r, resume_with, c, fm. rewrite update_after_agent_reply.
    apply resume_agent_without_flag. apply prefix_flag_rejected.
Qed.

(** C9: [chat] on a thread suspended after the agent's proposal does not
    start a fresh turn with the text: it writes
    ["Rejected. Feedback: " ++ text] as a [HumanMessage] and resumes with no
    input, through the approval node into [agent]. *)
Theorem chat_on_suspended_thread (msgs : list message) (txt : string)
  (calls : list ToolCall) (text : string) :
  let c := mkCheckpoint (msgs ++ [AIMessage txt calls])%list (Some human_approval) in
  let L := (messages c ++ [HumanMessage (rejected_prefix ++ text)])%list in
  chat_prepare c text = (mkCheckpoint L (Some human_approval), None)
  /\ exists rest,
       rr_trace (streamM (mkCheckpoint L (Some human_approval)) None)
       = (human_approval, L) :: (agent, L) :: rest.
Proof.
  intros c L. split.
  - unfold chat_prepare, c. cbn [is_waiting next]. cbv iota.
    rewrite update_after_agent_reply. reflexivity.
  - apply resume_agent_without_flag. apply prefix_flag_rejected.
Qed.
End Orchestrator.

(** ** SQL extraction *)








Lemma str_length_app (s t : string) :
  String.length (s ++ t) = String.length s + String.length t.
Proof. induction s as [|a s IH]; simpl; [reflexivity|now rewrite IH]. Qed.












(** ** The execute-action tool *)

(** C10 (as amended): the [execute_postgres_query] tool turns a database
    error into the text ["Error executing query: " ++ e]; with no row, no
    result set, or a result set without columns (whatever its row count) it
    answers exactly ["Query executed successfully per row count: 0"];
    otherwise (at least one column and one row) it answers a table of the
    header, the separator, at most 10 data rows (the first ones), and a line
    ["... (N more rows)"] exactly when N > 0 rows were left out. *)
Theorem execute_postgres_query_outputs (db : string -> db_result)
  (get_skill : string -> skill_lookup) (q : string) :
  let out := invoke_tool db get_skill (mkToolCall execute_tool_name q) in
  (forall e, db q = DbError e -> out = ("Error executing query: " ++ e)%string)
  /\ (forall desc, db q = DbOk desc [] -> out = "Query executed successfully per row count: 0")
  /\ (forall rows, db q = DbOk None rows \/ db q = DbOk (Some []) rows ->
      out = "Query executed successfully per row count: 0")
  /\ (forall cols rows, db q = DbOk (Some cols) rows -> cols <> [] -> rows <> [] ->
      exists data more,
        out = join nl ([table_header cols; table_separator cols] ++ data ++ more)%list
        /\ data = map format_row (firstn 10 rows)
        /\ length data = Nat.min 10 (length rows)
        /\ (length data <= 10)%nat
        /\ more = (if (length data <? length rows)%nat
                   then ["... (" ++ nat_to_string (length rows - length data)%nat
                         ++ " more rows)"]
                   else [])).
Proof.
  intros out. unfold out, invoke_tool. cbn [tc_name tc_arg].
  rewrite String.eqb_refl. split; [|split; [|split]].
  - intros e ->. reflexivity.
  - intros [[|c cols]|] ->; reflexivity.
  - intros rows [-> | ->]; reflexivity.
  - intros [|c cols] rows -> Hc Hne; [congruence|].
    assert (Hlen : length (map format_row (firstn 10 rows)) = Nat.min 10 (length rows))
      by (rewrite length_map, length_firstn; reflexivity).
    exists (map format_row (firstn 10 rows)), (more_rows_line rows).
    split; [destruct rows; [congruence|reflexivity]|].
    split; [reflexivity|]. split; [exact Hlen|]. split; [rewrite Hlen; lia|].
    rewrite Hlen. unfold more_rows_line.
    destruct (Nat.ltb_spec 10 (length rows)) as [Hlt|Hge].
    + rewrite Nat.min_l by lia.
      replace (10 <? length rows)%nat with true by (symmetry; apply Nat.ltb_lt; lia).
      reflexivity.
    + rewrite Nat.min_r by lia. rewrite Nat.ltb_irrefl. reflexivity.
Qed.

Section Extraction.
Variable llm : list message -> string * list ToolCall.
Variable system_prompt : string.
Variable db : string -> db_result.
Variable get_skill : string -> skill_lookup.

End Extraction.

(** * Concrete runs: witnesses and counterexamples *)

Lemma should_continue_after_agent_witness :
  should_continue ([HumanMessage "show 3 orders"; ToolMessage execute_tool_name "| n |"]
                   ++ [AIMessage "3 orders" []])%list = Some END.
Proof.
  apply (proj1 (proj2 (should_continue_after_agent
                         [HumanMessage "show 3 orders"; ToolMessage execute_tool_name "| n |"]
                         "3 orders" []))).
  - reflexivity.
  - exists [HumanMessage "show 3 orders"], "| n |". reflexivity.
Defined.

(** C2, as stated, fails: with two tool calls, the tool node produces an
    [execute_postgres_query] result, yet the run returns to [agent] because
    the last result is the [load_skill] one. *)
Lemma execute_result_not_last_returns_to_agent :
  let L := [HumanMessage "show 3 orders";
            AIMessage "" [mkToolCall execute_tool_name "SELECT 1";
                          mkToolCall load_skill_name "sales_analytics"]] in
  let out := [ToolMessage execute_tool_name "Query executed successfully per row count: 0";
              ToolMessage load_skill_name "Skill 'sales_analytics' not found."] in
  tool_node (sample_db (DbOk None [])) no_skills L = Some out
  /\ route_tool_output (L ++ out)%list = Some (To agent)
  /\ nth_error (rr_trace (run (sample_llm "3 orders") "" (sample_db (DbOk None [])) no_skills
                              recursion_limit false tools L)) 1
     = Some (agent, (L ++ out)%list).
Proof. cbv zeta. repeat split; vm_compute; reflexivity. Qed.

Lemma tool_node_then_route_witness :
  run (sample_llm "") "" (sample_db (DbOk None [])) no_skills 1 false tools
      ([HumanMessage "show 3 orders"] ++ [AIMessage "" [mkToolCall execute_tool_name "SELECT 1"]])%list
  = mkRun Finished
      (mkCheckpoint
         (([HumanMessage "show 3 orders"] ++ [AIMessage "" [mkToolCall execute_tool_name "SELECT 1"]])
          ++ map (fun call => ToolMessage (tc_name call)
                                (invoke_tool (sample_db (DbOk None [])) no_skills call))
                 [mkToolCall execute_tool_name "SELECT 1"])%list None)
      [(tools, ([HumanMessage "show 3 orders"]
                ++ [AIMessage "" [mkToolCall execute_tool_name "SELECT 1"]])%list)].
Proof.
  apply (proj1 (tool_node_then_route (sample_llm "") "" (sample_db (DbOk None [])) no_skills
                  [HumanMessage "show 3 orders"] ""
                  [mkToolCall execute_tool_name "SELECT 1"] 0 false)).
  reflexivity.
Defined.

(** C3, as stated, fails: a reply without any fenced block (here a
    clarifying question) also suspends the run at [human_approval]. *)
Lemma approval_pending_without_action_block :
  let r := stream (sample_llm "Which table do you mean?") "" (sample_db (DbOk None [])) no_skills
                  (mkCheckpoint [] None) (Some [HumanMessage "show 3 orders"]) in
  rr_status r = Interrupted
  /\ next (rr_state r) = Some human_approval
  /\ messages (rr_state r)
     = [HumanMessage "show 3 orders"; AIMessage "Which table do you mean?" []]
  /\ contains_fence "Which table do you mean?" = false.
Proof. cbv zeta. repeat split; vm_compute; reflexivity. Qed.

Lemma interrupt_commits_agent_reply_witness :
  rr_status (stream (sample_llm "```sql SELECT 1```") "" (sample_db (DbOk None [])) no_skills
                    (mkCheckpoint [] None) (Some [HumanMessage "show 3 orders"])) = Interrupted
  /\ next (rr_state (stream (sample_llm "```sql SELECT 1```") "" (sample_db (DbOk None []))
                            no_skills (mkCheckpoint [] None) (Some [HumanMessage "show 3 orders"])))
     = Some human_approval.
Proof.
  split; [vm_compute; reflexivity|].
  apply (interrupt_commits_agent_reply (sample_llm "```sql SELECT 1```") "" (sample_db (DbOk None []))
           no_skills (mkCheckpoint [] None) (Some [HumanMessage "show 3 orders"])).
  vm_compute. reflexivity.
Defined.

Lemma resume_with_user_message_witness :
  stream (sample_llm "") "" (sample_db (DbOk None [])) no_skills
    (mkCheckpoint ([HumanMessage "show 3 orders"; AIMessage "SELECT 1" []]
                   ++ [HumanMessage system_completion_msg])%list (Some human_approval)) None
  = mkRun Finished
      (mkCheckpoint ([HumanMessage "show 3 orders"; AIMessage "SELECT 1" []]
                     ++ [HumanMessage system_completion_msg])%list None)
      [(human_approval, ([HumanMessage "show 3 orders"; AIMessage "SELECT 1" []]
                         ++ [HumanMessage system_completion_msg])%list)].
Proof.
  apply (proj1 (resume_with_user_message (sample_llm "") "" (sample_db (DbOk None [])) no_skills
                  [HumanMessage "show 3 orders"; AIMessage "SELECT 1" []] system_completion_msg)).
  reflexivity.
Defined.

(** C5, as stated, fails: a resume whose payload is an [AIMessage] is not
    rejected; the log grows and the run ends. *)
Lemma resume_with_agent_payload_not_rejected :
  resume_with (sample_llm "") "" (sample_db (DbOk None [])) no_skills
    (mkCheckpoint [HumanMessage "show 3 orders"; AIMessage "SELECT 1" []] (Some human_approval))
    [AIMessage "SELECT 2" []]
  = mkRun Finished
      (mkCheckpoint [HumanMessage "show 3 orders"; AIMessage "SELECT 1" [];
                     AIMessage "SELECT 2" []] None)
      [(human_approval, [HumanMessage "show 3 orders"; AIMessage "SELECT 1" [];
                         AIMessage "SELECT 2" []])].
Proof. vm_compute. reflexivity. Qed.

Lemma invalid_resume_outcomes_witness :
  approval (sample_llm "") "" (sample_db (DbOk None [])) no_skills
    (mkCheckpoint [HumanMessage "show 3 orders"] None) "approve" None
  = (HTTPException 400 "Conversation is not waiting for approval.",
     mkCheckpoint [HumanMessage "show 3 orders"] None).
Proof.
  apply (proj1 (invalid_resume_outcomes (sample_llm "") "" (sample_db (DbOk None [])) no_skills
                  (mkCheckpoint [HumanMessage "show 3 orders"] None) "approve" None
                  [] (HumanMessage ""))).
  reflexivity.
Defined.

(** C6, as stated, fails: the approve branch reports the execution result,
    not the proposed [AIMessage], and the log then ends with the control
    message. *)
Lemma approve_reports_result_not_proposal :
  let txt := ("```sql" ++ nl ++ "SELECT 1" ++ nl ++ "```")%string in
  let answer := ("**Execution Result**:" ++ nl ++ nl ++ "| x |" ++ nl ++ "| --- |"
                 ++ nl ++ "| 1 |")%string in
  approval (sample_llm "") "" (sample_db (DbOk (Some ["x"]) [["1"]])) no_skills
    (mkCheckpoint [HumanMessage "show 3 orders"; AIMessage txt []] (Some human_approval))
    "approve" None
  = (Reply (mkResponse answer "done" (Some (["x"], [["1"]])) (Some "SELECT 1")),
     mkCheckpoint [HumanMessage "show 3 orders"; AIMessage txt [];
                   HumanMessage system_completion_msg] None)
  /\ answer <> txt.
Proof. cbv zeta. split; [vm_compute; reflexivity|discriminate]. Qed.

Lemma approve_closes_turn_witness :
  approval (sample_llm "") "" (sample_db (DbOk (Some ["x"]) [["1"]])) no_skills
    (mkCheckpoint ([HumanMessage "show 3 orders"] ++ [AIMessage "```sql SELECT 1```" []])%list
                  (Some human_approval)) "approve" None
  = (Reply (mkResponse ("**Execution Result**:" ++ nl ++ nl
                        ++ fst (fst (execute_query_locally (DbOk (Some ["x"]) [["1"]]))))
                       "done" (snd (fst (execute_query_locally (DbOk (Some ["x"]) [["1"]]))))
                       (Some (extract_sql "```sql SELECT 1```"))),
     mkCheckpoint (([HumanMessage "show 3 orders"] ++ [AIMessage "```sql SELECT 1```" []])
                   ++ [HumanMessage system_completion_msg])%list None).
Proof.
  apply (proj2 (approve_closes_turn (sample_llm "") "" (sample_db (DbOk (Some ["x"]) [["1"]]))
                  no_skills [HumanMessage "show 3 orders"] "```sql SELECT 1```" [] None
                  system_completion_msg (Some ["x"]) [["1"]])).
  reflexivity.
Defined.

(** C7, as stated, fails: the message written on rejection is the feedback
    behind the prefix ["Rejected. Feedback: "], and ["Rejected."] stands in
    for absent feedback. *)
Lemma reject_writes_prefixed_feedback :
  let c := mkCheckpoint [HumanMessage "show 3 orders"; AIMessage "```sql SELECT 1```" []]
                        (Some human_approval) in
  nth_error (messages (snd (approval (sample_llm "```sql SELECT 2```") ""
                             (sample_db (DbOk None [])) no_skills c "reject"
                             (Some "use last 7 days")))) 2
  = Some (HumanMessage "Rejected. Feedback: use last 7 days")
  /\ HumanMessage "Rejected. Feedback: use last 7 days" <> HumanMessage "use last 7 days"
  /\ nth_error (messages (snd (approval (sample_llm "```sql SELECT 2```") ""
                                (sample_db (DbOk None [])) no_skills c "reject" None))) 2
     = Some (HumanMessage "Rejected. Feedback: Rejected.").
Proof. cbv zeta. split; [|split]; [vm_compute; reflexivity|discriminate|vm_compute; reflexivity]. Qed.

Lemma reject_reenters_agent_witness :
  exists rest,
    rr_trace (resume_with (sample_llm "```sql SELECT 2```") "" (sample_db (DbOk None [])) no_skills
                (mkCheckpoint ([HumanMessage "show 3 orders"] ++ [AIMessage "SELECT 1" []])%list
                              (Some human_approval))
                [HumanMessage (rejected_prefix ++ feedback_text (Some "use last 7 days"))])
    = (human_approval,
       (([HumanMessage "show 3 orders"] ++ [AIMessage "SELECT 1" []])
        ++ [HumanMessage (rejected_prefix ++ feedback_text (Some "use last 7 days"))])%list)
      :: (agent,
          (([HumanMessage "show 3 orders"] ++ [AIMessage "SELECT 1" []])
           ++ [HumanMessage (rejected_prefix ++ feedback_text (Some "use last 7 days"))])%list)
      :: rest.
Proof.
  apply (proj2 (reject_reenters_agent (sample_llm "```sql SELECT 2```") ""
                  (sample_db (DbOk None [])) no_skills [HumanMessage "show 3 orders"]
                  "SELECT 1" [] "reject" (Some "use last 7 days") eq_refl)).
Defined.



Lemma execute_postgres_query_outputs_witness :
  exists data more,
    invoke_tool (sample_db (DbOk (Some ["n"]) (map (fun k => [nat_to_string k]) (seq 1 12))))
      no_skills (mkToolCall execute_tool_name "SELECT n")
    = join nl ([table_header ["n"]; table_separator ["n"]] ++ data ++ more)%list
    /\ data = map format_row (firstn 10 (map (fun k => [nat_to_string k]) (seq 1 12)))
    /\ length data = Nat.min 10 (length (map (fun k => [nat_to_string k]) (seq 1 12)))
    /\ (length data <= 10)%nat
    /\ more = (if (length data <? length (map (fun k => [nat_to_string k]) (seq 1 12)))%nat
               then ["... (" ++ nat_to_string (length (map (fun k => [nat_to_string k]) (seq 1 12))
                                               - length data)%nat ++ " more rows)"]
               else []).
Proof.
  apply (proj2 (proj2 (proj2 (execute_postgres_query_outputs
                                (sample_db (DbOk (Some ["n"]) (map (fun k => [nat_to_string k]) (seq 1 12))))
                                no_skills "SELECT n")))
           ["n"] (map (fun k => [nat_to_string k]) (seq 1 12))).
  - reflexivity.
  - discriminate.
  - vm_compute. discriminate.
Defined.

(** A statement that returns rows of no column ([SELECT FROM orders]):
    [cursor.description] is the empty tuple, which is false, so two rows
    are reported as ["row count: 0"] and no table is built. *)
Lemma zero_column_result_reports_count_zero :
  invoke_tool (sample_db (DbOk (Some []) [[]; []])) no_skills
    (mkToolCall execute_tool_name "SELECT FROM orders")
  = "Query executed successfully per row count: 0".
Proof. reflexivity. Qed.

Example more_rows_line_12 :
  more_rows_line (map (fun k => [nat_to_string k]) (seq 1 12)) = ["... (2 more rows)"].
Proof. reflexivity. Qed.

(** * Further properties of the code *)

(** ** Skill repository and the [load_skill] tool *)

Lemma in_list_skills (fs : SkillRepository.skills_fs) (s : SkillRepository.Skill) :
  In s (SkillRepository.list_skills fs) ->
  SkillRepository.dir_exists fs = true
  /\ In (SkillRepository.sk_name s) (SkillRepository.dir_entries fs)
  /\ SkillRepository.entry_is_dir fs (SkillRepository.sk_name s) = true
  /\ String.prefix "__" (SkillRepository.sk_name s) = false
  /\ exists d, SkillRepository.read_text fs (SkillRepository.sk_name s) "description.txt" = Some d
       /\ s = SkillRepository.mkSkill (SkillRepository.sk_name s) (strip d) "".
Proof.
  unfold SkillRepository.list_skills.
  destruct (SkillRepository.dir_exists fs); cbn [negb]; [|intros []].
  rewrite in_flat_map. intros [item [Hin Hs]].
  destruct (SkillRepository.entry_is_dir fs item) eqn:Hd; [|destruct Hs].
  destruct (String.prefix "__" item) eqn:Hp; cbn [andb negb] in Hs; [destruct Hs|].
  destruct (SkillRepository.read_text fs item "description.txt") as [d|] eqn:Hr; [|destruct Hs].
  destruct Hs as [<-|[]]. cbn [SkillRepository.sk_name].
  split; [reflexivity|]. split; [exact Hin|]. split; [exact Hd|]. split; [exact Hp|].
  exists d. split; [exact Hr|reflexivity].
Qed.

(** X1: the [load_skill] tool, reading the skill repository, answers the
    stripped [content.md] of the skill's folder when the folder has both
    [description.txt] and [content.md], both read without error, and that
    content is not blank; when reading one of the two files raises [e]
    ([description.txt] is read first), it answers
    ["Error loading skill: " ++ e]; it answers
    ["Skill '<name>' not found."] when the folder is missing, a file is
    missing, or [content.md] (read without error) is blank after stripping.
    The database is not consulted. *)
Theorem load_skill_tool_reads_repository (fs : SkillRepository.skills_fs)
  (db : string -> db_result) (skill_name d c e : string) :
  let out := invoke_tool db (SkillRepository.skill_content fs)
                         (mkToolCall load_skill_name skill_name) in
  (SkillRepository.entry_is_dir fs skill_name = true ->
   SkillRepository.read_text fs skill_name "description.txt" = Some d ->
   SkillRepository.read_text fs skill_name "content.md" = Some c ->
   SkillRepository.read_error fs skill_name "description.txt" = None ->
   SkillRepository.read_error fs skill_name "content.md" = None ->
   strip c <> "" -> out = strip c)
  /\ (SkillRepository.entry_is_dir fs skill_name = true ->
      SkillRepository.read_text fs skill_name "description.txt" = Some d ->
      SkillRepository.read_text fs skill_name "content.md" = Some c ->
      SkillRepository.read_error fs skill_name "description.txt" = Some e
      \/ (SkillRepository.read_error fs skill_name "description.txt" = None
          /\ SkillRepository.read_error fs skill_name "content.md" = Some e) ->
      out = ("Error loading skill: " ++ e)%string)
  /\ (SkillRepository.entry_is_dir fs skill_name = false
      \/ SkillRepository.read_text fs skill_name "description.txt" = None
      \/ SkillRepository.read_text fs skill_name "content.md" = None
      \/ (SkillRepository.read_text fs skill_name "content.md" = Some c
          /\ SkillRepository.read_error fs skill_name "description.txt" = None
          /\ SkillRepository.read_error fs skill_name "content.md" = None
          /\ strip c = "") ->
      out = ("Skill '" ++ skill_name ++ "' not found.")%string).
Proof.
  intros out. unfold out, invoke_tool. cbn [tc_name tc_arg].
  change (String.eqb load_skill_name execute_tool_name) with false.
  rewrite String.eqb_refl.
  unfold SkillRepository.skill_content, SkillRepository.get_skill_error,
    SkillRepository.get_skill.
  split; [|split].
  - intros Hd Hdesc Hc Hed Hec Hne. rewrite Hd, Hdesc, Hc, Hed, Hec.
    cbn [negb option_map SkillRepository.sk_content].
    unfold load_skill. destruct (strip c); [contradiction|reflexivity].
  - intros Hd Hdesc Hc [Hed|[Hed Hec]]; rewrite Hd, Hdesc, Hc, Hed; cbn [negb];
      [|rewrite Hec]; reflexivity.
  - intros [Hd|[Hdesc|[Hc|(Hc & Hed & Hec & Hblank)]]].
    + rewrite Hd. reflexivity.
    + destruct (SkillRepository.entry_is_dir fs skill_name); [|reflexivity].
      rewrite Hdesc. reflexivity.
    + destruct (SkillRepository.entry_is_dir fs skill_name); [|reflexivity].
      rewrite Hc. destruct (SkillRepository.read_text fs skill_name "description.txt"); reflexivity.
    + destruct (SkillRepository.entry_is_dir fs skill_name); [|reflexivity].
      rewrite Hc. destruct (SkillRepository.read_text fs skill_name "description.txt"); [|reflexivity].
      rewrite Hed, Hec. cbn [negb option_map SkillRepository.sk_content].
      rewrite Hblank. reflexivity.
Qed.

(** X2: a skill is listed exactly when the skills folder exists, the
    skill's name is an entry of it that is a directory, does not start with
    ["__"] and holds a [description.txt]; the listed skill carries that
    description stripped and an empty content. *)
Theorem list_skills_members (fs : SkillRepository.skills_fs) (s : SkillRepository.Skill) :
  In s (SkillRepository.list_skills fs) <->
  SkillRepository.dir_exists fs = true
  /\ In (SkillRepository.sk_name s) (SkillRepository.dir_entries fs)
  /\ SkillRepository.entry_is_dir fs (SkillRepository.sk_name s) = true
  /\ String.prefix "__" (SkillRepository.sk_name s) = false
  /\ exists d, SkillRepository.read_text fs (SkillRepository.sk_name s) "description.txt" = Some d
       /\ s = SkillRepository.mkSkill (SkillRepository.sk_name s) (strip d) "".
Proof.
  split; [apply in_list_skills|].
  intros (Hex & Hin & Hd & Hp & d & Hr & Hs).
  unfold SkillRepository.list_skills. rewrite Hex. cbn [negb].
  apply in_flat_map. exists (SkillRepository.sk_name s). split; [exact Hin|].
  rewrite Hd, Hp. cbn [andb negb]. rewrite Hr. left. symmetry. exact Hs.
Qed.

(** X3: for a listed skill, [get_skill] on its name returns the same name
    and description, with the stripped [content.md] as content; it returns
    [None] when the folder has no [content.md]. *)
Theorem listed_skill_get (fs : SkillRepository.skills_fs) (s : SkillRepository.Skill) :
  In s (SkillRepository.list_skills fs) ->
  (forall c, SkillRepository.read_text fs (SkillRepository.sk_name s) "content.md" = Some c ->
   SkillRepository.get_skill fs (SkillRepository.sk_name s)
   = Some (SkillRepository.mkSkill (SkillRepository.sk_name s)
                                   (SkillRepository.sk_description s) (strip c)))
  /\ (SkillRepository.read_text fs (SkillRepository.sk_name s) "content.md" = None ->
      SkillRepository.get_skill fs (SkillRepository.sk_name s) = None).
Proof.
  intros H. destruct (in_list_skills fs s H) as (_ & _ & Hd & _ & d & Hr & Hs).
  unfold SkillRepository.get_skill. rewrite Hd, Hr. cbn [negb].
  split.
  - intros c Hc. rewrite Hc. rewrite Hs at 3. reflexivity.
  - intros Hc. rewrite Hc. reflexivity.
Qed.

(** ** The tool node *)

(** X4: when no tool call of the last [AIMessage] requests
    [execute_postgres_query], the tool node's answer does not depend on the
    database; a call naming neither tool is answered with the invalid-tool
    error text. *)
Theorem tool_node_database_use (db db' : string -> db_result)
  (get_skill : string -> skill_lookup) (msgs : list message) (txt : string)
  (calls : list ToolCall) :
  (forall call, In call calls -> tc_name call <> execute_tool_name) ->
  tool_node db get_skill (msgs ++ [AIMessage txt calls])%list
  = tool_node db' get_skill (msgs ++ [AIMessage txt calls])%list
  /\ (forall call, In call calls -> tc_name call <> load_skill_name ->
      invoke_tool db get_skill call = invalid_tool_error (tc_name call)).
Proof.
  intros H. split.
  - unfold tool_node. rewrite rev_snoc. f_equal. apply map_ext_in.
    intros call Hin. f_equal. unfold invoke_tool.
    destruct (String.eqb_spec (tc_name call) execute_tool_name) as [He|_];
      [exfalso; exact (H call Hin He)|reflexivity].
  - intros call Hin Hl. unfold invoke_tool.
    destruct (String.eqb_spec (tc_name call) execute_tool_name) as [He|_];
      [exfalso; exact (H call Hin He)|].
    destruct (String.eqb_spec (tc_name call) load_skill_name) as [Hl'|_];
      [contradiction|reflexivity].
Qed.

(** ** Invariants of the runs *)

Section RunInvariants.
Variable llm : list message -> string * list ToolCall.
Variable system_prompt : string.
Variable db : string -> db_result.
Variable get_skill : string -> skill_lookup.

Abbreviation runM := (run llm system_prompt db get_skill).
Abbreviation streamM := (stream llm system_prompt db get_skill).

Lemma run_node_graph_written (n : node) (msgs out : list message) :
  run_node llm system_prompt db get_skill n msgs = Some out ->
  Forall (fun m => graph_written m = true) out.
Proof.
  destruct n; cbn [run_node].
  - unfold agent_node. destruct (llm _) as [c calls].
    intros H; injection H as <-. repeat constructor.
  - unfold tool_node. destruct (rev msgs) as [|m r]; [discriminate|].
    destruct m; try discriminate. intros H; injection H as <-.
    apply Forall_forall. intros x Hx. apply in_map_iff in Hx.
    destruct Hx as [call [<- _]]. reflexivity.
  - intros H; injection H as <-. constructor.
Qed.

Lemma run_log (fuel : nat) (r : bool) (n : node) (msgs : list message) :
  exists ext, messages (rr_state (runM fuel r n msgs)) = (msgs ++ ext)%list
              /\ Forall (fun m => graph_written m = true) ext.
Proof.
  revert r n msgs. induction fuel as [|f IH]; intros r n msgs.
  - exists []. rewrite app_nil_r. split; [reflexivity|constructor].
  - rewrite run_S.
    destruct (interrupt_before n && negb r);
      [exists []; rewrite app_nil_r; split; [reflexivity|constructor]|].
    destruct (run_node llm system_prompt db get_skill n msgs) as [out|] eqn:Hn;
      [|exists []; rewrite app_nil_r; split; [reflexivity|constructor]].
    pose proof (run_node_graph_written _ _ _ Hn) as Hw.
    destruct (route n (msgs ++ out)%list) as [[m|]|].
    + destruct (IH false m (msgs ++ out)%list) as [ext [He Hf]].
      exists (out ++ ext)%list. cbv zeta. cbn [rr_state]. rewrite He, app_assoc.
      split; [reflexivity|]. apply Forall_app. split; assumption.
    + exists out. split; [reflexivity|exact Hw].
    + exists []. rewrite app_nil_r. split; [reflexivity|constructor].
Qed.

Lemma stream_prefix (c : checkpoint) (inputs : option (list message)) :
  exists ext, messages (rr_state (streamM c inputs)) = (messages c ++ ext)%list.
Proof.
  unfold stream. destruct inputs as [i|].
  - destruct (run_log recursion_limit false agent (messages c ++ i)%list) as [ext [He _]].
    exists (i ++ ext)%list. rewrite He, app_assoc. reflexivity.
  - destruct (next c) as [n|].
    + destruct (run_log recursion_limit true n (messages c)) as [ext [He _]].
      exists ext. exact He.
    + exists []. rewrite app_nil_r. reflexivity.
Qed.

Lemma run_finished_next (fuel : nat) (r : bool) (n : node) (msgs : list message) :
  rr_status (runM fuel r n msgs) = Finished -> next (rr_state (runM fuel r n msgs)) = None.
Proof.
  revert r n msgs. induction fuel as [|f IH]; intros r n msgs; [discriminate|].
  rewrite run_S.
  destruct (interrupt_before n && negb r); [discriminate|].
  destruct (run_node llm system_prompt db get_skill n msgs) as [out|]; [|discriminate].
  destruct (route n (msgs ++ out)%list) as [[m|]|]; [|reflexivity|discriminate].
  cbv zeta. cbn [rr_state rr_status]. apply IH.
Qed.

Lemma stream_interrupted (c : checkpoint) (inputs : option (list message)) :
  rr_status (streamM c inputs) = Interrupted ->
  next (rr_state (streamM c inputs)) = Some human_approval
  /\ exists pre txt tr,
       messages (rr_state (streamM c inputs)) = (pre ++ [AIMessage txt []])%list
       /\ rr_trace (streamM c inputs) = (tr ++ [(agent, pre)])%list.
Proof.
  intros Hst. unfold stream in *.
  destruct inputs as [input|].
  - destruct (run_interrupted llm system_prompt db get_skill _ _ _ _ Hst)
      as [[Hi _]|H]; [discriminate|exact H].
  - destruct (next c) as [n|]; [|discriminate].
    destruct (run_interrupted llm system_prompt db get_skill _ _ _ _ Hst)
      as [[Hi _]|H]; [|exact H].
    rewrite andb_false_r in Hi. discriminate.
Qed.

Lemma stream_finished_next (c : checkpoint) (inputs : option (list message)) :
  rr_status (streamM c inputs) = Finished -> next (rr_state (streamM c inputs)) = None.
Proof.
  unfold stream. destruct inputs as [input|]; [apply run_finished_next|].
  destruct (next c) as [n|] eqn:Hn; [apply run_finished_next|]. intros _. exact Hn.
Qed.

Lemma run_no_approval_step (fuel : nat) (n : node) (msgs : list message) :
  ~ In human_approval (map fst (rr_trace (runM fuel false n msgs))).
Proof.
  revert n msgs. induction fuel as [|f IH]; intros n msgs; [cbn; tauto|].
  rewrite run_S. destruct n; cbn [interrupt_before node_eqb andb negb];
    [| |cbn; tauto].
  all: destruct (run_node llm system_prompt db get_skill _ msgs) as [out|];
    [|cbn; intros [H|H]; [discriminate|exact H]].
  all: destruct (route _ (msgs ++ out)%list) as [[m|]|];
    cbv zeta; cbn [rr_trace map fst]; intros [H|H]; try discriminate;
    try exact (IH _ _ H); exact H.
Qed.

(** Routing functions raise only on an empty log, and the routers after
    the tool node and the approval node lead only to [agent]. *)
Lemma should_continue_none (msgs : list message) : should_continue msgs = None -> msgs = [].
Proof.
  unfold should_continue. destruct (rev msgs) as [|last older] eqn:E.
  - intros _. rewrite <- (rev_involutive msgs), E. reflexivity.
  - destruct (has_tool_calls last); [discriminate|].
    destruct older as [|[] ?]; try discriminate.
    destruct (String.eqb _ _); discriminate.
Qed.

Lemma route_tool_output_none (msgs : list message) : route_tool_output msgs = None -> msgs = [].
Proof.
  unfold route_tool_output. destruct (rev msgs) as [|last older] eqn:E.
  - intros _. rewrite <- (rev_involutive msgs), E. reflexivity.
  - destruct last; try discriminate. destruct (String.eqb _ _); discriminate.
Qed.

Lemma check_approval_outcome_none (msgs : list message) :
  check_approval_outcome msgs = None -> msgs = [].
Proof.
  unfold check_approval_outcome. destruct (rev msgs) as [|last older] eqn:E.
  - intros _. rewrite <- (rev_involutive msgs), E. reflexivity.
  - destruct last; try discriminate. destruct (String.prefix _ _); discriminate.
Qed.

Lemma route_tool_output_agent (msgs : list message) (m : node) :
  route_tool_output msgs = Some (To m) -> m = agent.
Proof.
  unfold route_tool_output. destruct (rev msgs) as [|[] ?]; try discriminate;
    try (intros H; injection H as <-; reflexivity).
  destruct (String.eqb _ _); [discriminate|]. intros H; injection H as <-. reflexivity.
Qed.

Lemma check_approval_outcome_agent (msgs : list message) (m : node) :
  check_approval_outcome msgs = Some (To m) -> m = agent.
Proof.
  unfold check_approval_outcome. destruct (rev msgs) as [|[] ?]; try discriminate.
  destruct (String.prefix _ _); [discriminate|]. intros H; injection H as <-. reflexivity.
Qed.

Lemma should_continue_ready (msgs : list message) (m : node) :
  should_continue msgs = Some (To m) -> resumable (mkCheckpoint msgs (Some m)) = true.
Proof.
  unfold should_continue, resumable, last_is_ai. cbn [next messages].
  destruct (rev msgs) as [|last older] eqn:E; [discriminate|].
  assert (Hne : msgs <> []) by (intros ->; discriminate).
  destruct (has_tool_calls last) eqn:Ht.
  - intros Hm; injection Hm as <-. destruct last; try discriminate; reflexivity.
  - intros Hm. assert (Hh : m = human_approval).
    { destruct older as [|o older]; [congruence|].
      destruct o; try congruence. destruct (String.eqb _ _); congruence. }
    subst m. destruct msgs; [congruence|reflexivity].
Qed.

Lemma app_not_nil_l {A} (l l' : list A) : l <> [] -> (l ++ l')%list <> [].
Proof. destruct l; [congruence|discriminate]. Qed.

Lemma step_ready (n : node) (msgs : list message) :
  resumable (mkCheckpoint msgs (Some n)) = true ->
  exists out t, run_node llm system_prompt db get_skill n msgs = Some out
  /\ route n (msgs ++ out)%list = Some t
  /\ forall m, t = To m -> resumable (mkCheckpoint (msgs ++ out)%list (Some m)) = true.
Proof.
  intros H. destruct n; cbn [resumable next messages] in H.
  - exists (agent_node llm system_prompt msgs).
    destruct (should_continue (msgs ++ agent_node llm system_prompt msgs)%list) as [t|] eqn:Hr.
    + exists t. split; [reflexivity|]. split; [exact Hr|].
      intros m ->. apply should_continue_ready. exact Hr.
    + exfalso. apply should_continue_none in Hr.
      unfold agent_node in Hr. destruct (llm _) as [c calls].
      destruct msgs; discriminate.
  - unfold last_is_ai in H.
    destruct (rev msgs) as [|m0 r0] eqn:E; [discriminate|].
    destruct m0 as [|txt calls| |]; try discriminate.
    assert (Hne : msgs <> []) by (intros ->; discriminate).
    exists (map (fun call => ToolMessage (tc_name call) (invoke_tool db get_skill call)) calls).
    destruct (route_tool_output (msgs ++ map (fun call => ToolMessage (tc_name call)
                                 (invoke_tool db get_skill call)) calls)%list)
      as [t|] eqn:Hr.
    + exists t. split; [cbn [run_node]; unfold tool_node; rewrite E; reflexivity|].
      split; [exact Hr|]. intros m ->. apply route_tool_output_agent in Hr. subst m.
      reflexivity.
    + exfalso. apply route_tool_output_none in Hr. exact (app_not_nil_l _ _ Hne Hr).
  - assert (Hne : msgs <> []) by (intros ->; discriminate).
    exists [].
    destruct (check_approval_outcome (msgs ++ [])%list) as [t|] eqn:Hr.
    + exists t. split; [reflexivity|]. split; [exact Hr|]. intros m ->.
      apply check_approval_outcome_agent in Hr. subst m. reflexivity.
    + exfalso. apply check_approval_outcome_none in Hr. exact (app_not_nil_l _ _ Hne Hr).
Qed.

Lemma run_no_raise (fuel : nat) (r : bool) (n : node) (msgs : list message) :
  resumable (mkCheckpoint msgs (Some n)) = true ->
  rr_status (runM fuel r n msgs) <> Raised
  /\ resumable (rr_state (runM fuel r n msgs)) = true.
Proof.
  revert r n msgs. induction fuel as [|f IH]; intros r n msgs H.
  - split; [discriminate|exact H].
  - rewrite run_S.
    destruct (interrupt_before n && negb r); [split; [discriminate|exact H]|].
    destruct (step_ready n msgs H) as [out [t [Hn [Hr Hm]]]].
    rewrite Hn, Hr. destruct t as [m|].
    + cbv zeta. cbn [rr_status rr_state]. apply IH. apply Hm. reflexivity.
    + split; [discriminate|reflexivity].
Qed.

(** X5: a run only appends to the log (what was there is kept as it was):
    after the input, it appends only the agent's [AIMessage]s and the tool
    node's [ToolMessage]s; in particular the system prompt is never written
    to the log. *)
Theorem stream_appends_graph_messages (c : checkpoint) (inputs : option (list message)) :
  exists ext,
    messages (rr_state (streamM c inputs))
    = (messages c ++ match inputs with Some input => input | None => [] end ++ ext)%list
    /\ Forall (fun m => graph_written m = true) ext.
Proof.
  unfold stream. destruct inputs as [input|].
  - destruct (run_log recursion_limit false agent (messages c ++ input)%list) as [ext [He Hf]].
    exists ext. rewrite He, app_assoc. split; [reflexivity|exact Hf].
  - destruct (next c) as [n|].
    + destruct (run_log recursion_limit true n (messages c)) as [ext [He Hf]].
      exists ext. rewrite He. split; [reflexivity|exact Hf].
    + exists []. cbn [rr_state app]. rewrite app_nil_r. split; [reflexivity|constructor].
Qed.

(** X16: the approval node is never executed in the middle of a run: the
    interrupt stops every run before it, so it only runs as the first node
    of a resumed run; a run started with new input never executes it. *)
Theorem approval_node_only_on_resume (fuel : nat) (resuming : bool) (n : node)
  (msgs : list message) (c : checkpoint) (input : list message) :
  ~ In human_approval (map fst (tl (rr_trace (runM fuel resuming n msgs))))
  /\ ~ In human_approval (map fst (rr_trace (streamM c (Some input)))).
Proof.
  split.
  - destruct fuel as [|f]; [cbn; tauto|]. rewrite run_S.
    destruct (interrupt_before n && negb resuming); [cbn; tauto|].
    destruct (run_node llm system_prompt db get_skill n msgs) as [out|]; [|cbn; tauto].
    destruct (route n (msgs ++ out)%list) as [[m|]|]; [|cbn; tauto..].
    cbv zeta. cbn [rr_trace tl]. apply run_no_approval_step.
  - unfold stream. apply run_no_approval_step.
Qed.

(** X17: the graph's own routing and tool node never raise on the
    checkpoints the program builds: [update_state] of a thread waiting at
    the approval interrupt (the only one the program updates) leaves a
    checkpoint whose pending node can run, and a run from such a
    checkpoint (a fresh thread included) never raises and leaves one
    again. *)
Theorem graph_never_raises (c : checkpoint) (inputs : option (list message))
  (values : list message) :
  (is_waiting c = true -> resumable (update_state c values) = true)
  /\ (resumable c = true ->
      rr_status (streamM c inputs) <> Raised
      /\ resumable (rr_state (streamM c inputs)) = true).
Proof.
  split.
  - intros _. unfold update_state.
    destruct (should_continue (messages c ++ values)%list) as [[m|]|] eqn:E;
      [apply should_continue_ready; exact E|reflexivity|reflexivity].
  - intros H. unfold stream. destruct inputs as [input|].
    + apply run_no_raise. reflexivity.
    + destruct c as [ms [n|]]; cbn [next messages].
      * apply run_no_raise. exact H.
      * split; [discriminate|exact H].
Qed.
End RunInvariants.

(** ** The endpoints *)

Section Endpoints.
Variable llm : list message -> string * list ToolCall.
Variable system_prompt : string.
Variable db : string -> db_result.
Variable get_skill : string -> skill_lookup.

Abbreviation streamM := (stream llm system_prompt db get_skill).
Abbreviation chatM := (chat llm system_prompt db get_skill).
Abbreviation approvalM := (approval llm system_prompt db get_skill).

Lemma extends_stream (c c' : checkpoint) (inputs : option (list message)) :
  (exists e, messages c' = (messages c ++ e)%list) ->
  exists e, messages (rr_state (streamM c' inputs)) = (messages c ++ e)%list.
Proof.
  intros [e He]. destruct (stream_prefix llm system_prompt db get_skill c' inputs) as [e' He'].
  exists (e ++ e')%list. rewrite He', He, app_assoc. reflexivity.
Qed.

Lemma extends_update (c c' : checkpoint) (values : list message) :
  (exists e, messages c' = (messages c ++ e)%list) ->
  exists e, messages (update_state c' values) = (messages c ++ e)%list.
Proof.
  intros [e He]. exists (e ++ values)%list. cbn [update_state messages].
  rewrite He, app_assoc. reflexivity.
Qed.

Lemma extends_refl (c : checkpoint) : exists e, messages c = (messages c ++ e)%list.
Proof. exists []. rewrite app_nil_r. reflexivity. Qed.

Ltac extends_chain :=
  repeat first [ apply extends_stream | apply extends_update ]; apply extends_refl.

Lemma process_run_interrupted (r : run_result) (pre : list message) (txt : string) :
  rr_status r = Interrupted -> next (rr_state r) = Some human_approval ->
  messages (rr_state r) = (pre ++ [AIMessage txt []])%list ->
  process_run r = Reply (mkResponse txt "approval_required" None None).
Proof.
  intros Hst Hn Hm. unfold process_run. rewrite Hst. cbv zeta.
  unfold is_waiting. rewrite Hn, Hm, rev_snoc. reflexivity.
Qed.

(** X6: the endpoints never remove or rewrite logged messages: the
    checkpoint [chat] and [approval] leave behind extends the log they
    found, whatever the outcome. *)
Theorem endpoints_append_only (c : checkpoint) (text : string) (auto_execute : bool)
  (decision : string) (feedback : option string) :
  (exists ext, messages (snd (chatM c text auto_execute)) = (messages c ++ ext)%list)
  /\ (exists ext, messages (snd (approvalM c decision feedback)) = (messages c ++ ext)%list).
Proof.
  split.
  - unfold chat, chat_prepare.
    destruct (is_waiting c); cbv zeta;
      destruct (process_run _) as [resp| |]; cbn [snd]; try extends_chain;
      destruct (auto_execute && String.eqb (status resp) "approval_required");
      cbn [snd]; try extends_chain;
      destruct (execute_query_locally _) as [[rt data] [e|]]; cbn [snd]; try extends_chain;
      destruct (rr_status _); cbn [snd]; extends_chain.
  - unfold approval.
    destruct (negb (is_waiting c)); cbn [snd]; [apply extends_refl|].
    destruct (String.eqb decision "approve"); cbv zeta; cbn [snd]; [|extends_chain].
    destruct (rev (messages c)) as [|last_msg older]; cbn [snd]; [apply extends_refl|].
    destruct (execute_query_locally _) as [[rt data] [e|]]; cbn [snd]; [apply extends_refl|].
    destruct (rr_status _); cbn [snd]; extends_chain.
Qed.

(** X7: [chat] on a thread that is not waiting for approval starts a new
    turn: the message is the run's input, as a [HumanMessage] appended to
    the log, and the first node executed is [agent], given that log. *)
Theorem chat_starts_new_turn (c : checkpoint) (text : string) :
  is_waiting c = false ->
  chat_prepare c text = (c, Some [HumanMessage text])
  /\ exists rest, rr_trace (streamM c (Some [HumanMessage text]))
                  = (agent, (messages c ++ [HumanMessage text])%list) :: rest.
Proof.
  intros H. split; [unfold chat_prepare; rewrite H; reflexivity|].
  unfold stream. destruct recursion_limit_SS as [k Hk]. rewrite Hk.
  apply (run_trace_head llm system_prompt db get_skill (S k) false agent _ eq_refl).
Qed.

(** X9: [process_run] of a run answers a server error exactly when the run
    raised or hit the recursion limit; a run suspended for approval is
    reported as ["approval_required"] with the text of the agent's
    proposal, the last message; a finished run is reported as ["done"]. *)
Theorem process_run_reports_run (c : checkpoint) (inputs : option (list message)) :
  let r := streamM c inputs in
  (process_run r = ServerError <-> rr_status r = Raised \/ rr_status r = RecursionLimitHit)
  /\ (rr_status r = Interrupted ->
      exists pre txt, messages (rr_state r) = (pre ++ [AIMessage txt []])%list
        /\ process_run r = Reply (mkResponse txt "approval_required" None None))
  /\ (rr_status r = Finished ->
      exists resp, process_run r = Reply resp /\ status resp = "done").
Proof.
  intros r. split; [|split].
  - unfold process_run. destruct (rr_status r); cbv zeta.
    + split; [destruct (rev _); discriminate|intros [H|H]; discriminate].
    + split; [destruct (rev _); discriminate|intros [H|H]; discriminate].
    + split; [intros _; left; reflexivity|reflexivity].
    + split; [intros _; right; reflexivity|reflexivity].
  - intros Hst. destruct (stream_interrupted llm system_prompt db get_skill c inputs Hst)
      as [Hn [pre [txt [tr [Hm _]]]]].
    exists pre, txt. split; [exact Hm|]. apply (process_run_interrupted r pre); assumption.
  - intros Hst. pose proof (stream_finished_next llm system_prompt db get_skill c inputs Hst) as Hn.
    unfold process_run. fold r in Hn. rewrite Hst. cbv zeta. unfold is_waiting. rewrite Hn.
    destruct (rev (messages (rr_state r))); eexists; split; reflexivity.
Qed.

(** X11: when the approved query fails, [approval] answers the database
    error and leaves the checkpoint as it was, still waiting for approval,
    so the proposal can be approved or rejected again; when it succeeds,
    the thread is closed and any further [approval] is refused with HTTP
    400, so an approved query is executed once. *)
Theorem approve_error_keeps_pending (msgs : list message) (txt : string)
  (calls : list ToolCall) (fb : option string) (e : string)
  (desc : option (list string)) (rows : list (list string))
  (decision' : string) (fb' : option string) :
  let c := mkCheckpoint (msgs ++ [AIMessage txt calls])%list (Some human_approval) in
  (db (extract_sql txt) = DbError e ->
   approvalM c "approve" fb
   = (Reply (mkResponse ("Error executing query: " ++ e) "done" None (Some (extract_sql txt))), c)
   /\ is_waiting c = true)
  /\ (db (extract_sql txt) = DbOk desc rows ->
      approvalM (snd (approvalM c "approve" fb)) decision' fb'
      = (HTTPException 400 "Conversation is not waiting for approval.",
         snd (approvalM c "approve" fb))).
Proof.
  intros c. split.
  - intros He. split; [|reflexivity].
    unfold c. rewrite approve_branch. rewrite He. reflexivity.
  - intros Hok. unfold c. rewrite approve_branch. rewrite Hok.
    pose proof (execute_query_locally_ok desc rows) as Hnone.
    destruct (execute_query_locally (DbOk desc rows)) as [[rt data] err].
    cbn in Hnone. subst err. cbn [snd]. reflexivity.
Qed.

(** X12: with [auto_execute], when the run stops for approval, [chat]
    executes [extract_sql] of the proposal at once. If the query fails, it
    answers the error with status ["done"] but leaves the thread waiting
    for approval; if it succeeds, it answers the result and closes the
    thread with the completion message appended. *)
Theorem chat_auto_execute_outcomes (c : checkpoint) (text : string) :
  let r := streamM (fst (chat_prepare c text)) (snd (chat_prepare c text)) in
  rr_status r = Interrupted ->
  exists pre txt,
    messages (rr_state r) = (pre ++ [AIMessage txt []])%list
    /\ is_waiting (rr_state r) = true
    /\ (forall e, db (extract_sql txt) = DbError e ->
        chatM c text true
        = (Reply (mkResponse ("Error executing query (Auto-Mode): " ++ e) "done" None
                             (Some (extract_sql txt))), rr_state r))
    /\ (forall desc rows, db (extract_sql txt) = DbOk desc rows ->
        chatM c text true
        = (Reply (mkResponse ("**Auto Execution Result**:" ++ nl ++ nl
                              ++ fst (fst (execute_query_locally (DbOk desc rows))))
                             "done" (snd (fst (execute_query_locally (DbOk desc rows))))
                             (Some (extract_sql txt))),
           mkCheckpoint (messages (rr_state r) ++ [HumanMessage system_completion_msg])%list None)).
Proof.
  intros r Hst.
  destruct (stream_interrupted llm system_prompt db get_skill _ _ Hst)
    as [Hn [pre [txt [tr [Hm _]]]]].
  fold r in Hn, Hm.
  pose proof (process_run_interrupted r pre txt Hst Hn Hm) as Hp.
  exists pre, txt. split; [exact Hm|]. split; [unfold is_waiting; rewrite Hn; reflexivity|].
  unfold chat. subst r.
  destruct (chat_prepare c text) as [c1 inputs]. cbn [fst snd] in Hp, Hm, Hn |- *.
  rewrite Hp. cbn [status response andb].
  change (String.eqb "approval_required" "approval_required") with true. cbv iota zeta.
  destruct (rr_state (streamM c1 inputs)) as [ms nx]. cbn [messages next] in Hm, Hn.
  subst ms nx. split.
  - intros e He. rewrite He. reflexivity.
  - intros desc rows Hok. rewrite Hok.
    pose proof (execute_query_locally_ok desc rows) as Hnone.
    destruct (execute_query_locally (DbOk desc rows)) as [[rt data] err].
    cbn in Hnone. subst err. cbv iota.
    rewrite update_after_agent_reply.
    rewrite (resume_terminal_on_flag llm system_prompt db get_skill _
               system_completion_msg eq_refl).
    reflexivity.
Qed.
End Endpoints.

(** X10: the API's local execution renders a query result as the agent's
    tool does, as long as the tool does not truncate: a database error
    gives the same ["Error executing query: ..."] text (and the error
    itself), and a result of 1 to 10 rows the same markdown table; the
    structured data of a non-empty result with at least one column holds
    all its rows, beyond 10 too; an empty result, a statement without result
    set or a result without columns gives
    ["[Execution Result]: No results found."] and no data. *)
Theorem local_execution_matches_tool (r : db_result) :
  (forall e, r = DbError e -> execute_query_locally r = (execute_postgres_query r, None, Some e))
  /\ (forall cols rows, r = DbOk (Some cols) rows -> cols <> [] -> rows <> [] ->
      snd (fst (execute_query_locally r)) = Some (cols, rows)
      /\ snd (execute_query_locally r) = None
      /\ ((length rows <= 10)%nat -> fst (fst (execute_query_locally r)) = execute_postgres_query r))
  /\ (forall desc rows, r = DbOk desc rows -> desc = None \/ desc = Some [] \/ rows = [] ->
      execute_query_locally r = ("[Execution Result]: No results found.", None, None)).
Proof.
  split; [|split].
  - intros e ->. reflexivity.
  - intros [|c cols] rows -> Hc Hne; [congruence|].
    destruct rows as [|row rest]; [congruence|].
    split; [reflexivity|]. split; [reflexivity|]. intros Hle.
    cbn [execute_query_locally execute_postgres_query fst].
    unfold more_rows_line.
    replace (10 <? length (row :: rest))%nat with false by (symmetry; apply Nat.ltb_ge; exact Hle).
    rewrite app_nil_r, firstn_all2 by exact Hle. reflexivity.
  - intros desc rows -> [->|[->| ->]]; [reflexivity|reflexivity|].
    destruct desc as [[|c cols]|]; reflexivity.
Qed.

(** ** Stripping and the extracted query *)

Lemma drop_spaces_head (l : list ascii) (a : ascii) (l' : list ascii) :
  drop_spaces l = a :: l' -> is_space a = false.
Proof.
  induction l as [|b l IH]; cbn [drop_spaces]; [discriminate|].
  destruct (is_space b) eqn:Hb; [exact IH|]. intros H. injection H as -> _. exact Hb.
Qed.

Lemma drop_spaces_suffix (l : list ascii) : exists sp, l = (sp ++ drop_spaces l)%list.
Proof.
  induction l as [|b l [sp IH]]; cbn [drop_spaces]; [exists []; reflexivity|].
  destruct (is_space b); [exists (b :: sp); cbn; f_equal; exact IH|exists []; reflexivity].
Qed.

Lemma drop_spaces_fixed (l : list ascii) :
  (forall a l', l = a :: l' -> is_space a = false) -> drop_spaces l = l.
Proof.
  destruct l as [|a l]; cbn [drop_spaces]; [reflexivity|].
  intros H. rewrite (H a l eq_refl). reflexivity.
Qed.

Lemma strip_eq (s : string) :
  strip s = string_of_list_ascii (strip_list (list_ascii_of_string s)).
Proof. reflexivity. Qed.

Lemma strip_list_head (l : list ascii) (a : ascii) (l' : list ascii) :
  strip_list l = a :: l' -> is_space a = false.
Proof.
  unfold strip_list. intros H.
  destruct (drop_spaces_suffix (rev (drop_spaces l))) as [sp Hsp].
  assert (Hd : drop_spaces l
               = (rev (drop_spaces (rev (drop_spaces l))) ++ rev sp)%list).
  { rewrite <- rev_app_distr, <- Hsp, rev_involutive. reflexivity. }
  rewrite H in Hd. exact (drop_spaces_head l a (l' ++ rev sp)%list Hd).
Qed.

Lemma strip_list_last (l l' : list ascii) (a : ascii) :
  strip_list l = (l' ++ [a])%list -> is_space a = false.
Proof.
  unfold strip_list. intros H.
  apply (f_equal (@rev ascii)) in H. rewrite rev_involutive, rev_snoc in H.
  exact (drop_spaces_head _ a (rev l') H).
Qed.

Lemma strip_list_idem (l : list ascii) : strip_list (strip_list l) = strip_list l.
Proof.
  assert (H1 : drop_spaces (strip_list l) = strip_list l).
  { apply drop_spaces_fixed. intros a l' H. exact (strip_list_head l a l' H). }
  assert (H2 : drop_spaces (rev (strip_list l)) = rev (strip_list l)).
  { apply drop_spaces_fixed. intros a l' H.
    unfold strip_list in H. rewrite rev_involutive in H. exact (drop_spaces_head _ a l' H). }
  unfold strip_list at 1. rewrite H1, H2, rev_involutive. reflexivity.
Qed.

(** X13: the query [extract_sql] submits is trimmed: stripping it again
    changes nothing, and it neither starts nor ends with whitespace. *)
Theorem extract_sql_trimmed (t : string) :
  strip (extract_sql t) = extract_sql t
  /\ (forall a rest, list_ascii_of_string (extract_sql t) = a :: rest -> is_space a = false)
  /\ (forall rest a, list_ascii_of_string (extract_sql t) = (rest ++ [a])%list ->
      is_space a = false).
Proof.
  assert (Hs : exists s, extract_sql t = strip s)
    by (unfold extract_sql; destruct (re_search t); eexists; reflexivity).
  destruct Hs as [s Hs]. rewrite Hs, !strip_eq, !list_ascii_of_string_of_list_ascii.
  split; [|split].
  - rewrite strip_list_idem. reflexivity.
  - apply strip_list_head.
  - apply strip_list_last.
Qed.

(** ** The console session *)

(** X15: on approval the console executes the same query as the API's
    approve branch, [extract_sql] of the proposal; its [SELECT]/[WITH]
    test only decides whether a warning is printed, and the warning is
    printed only when the text has no fenced block. *)
Theorem cli_executes_api_query (content : string) :
  fst (cli_extract_sql content) = extract_sql content
  /\ (snd (cli_extract_sql content) = true -> re_search content = None).
Proof.
  unfold cli_extract_sql, extract_sql.
  destruct (re_search content); [split; [reflexivity|discriminate]|].
  cbv zeta. destruct (_ || _); split; reflexivity.
Qed.

Lemma repeat_char_length (a : ascii) (n : nat) : String.length (repeat_char a n) = n.
Proof. induction n as [|n IH]; cbn; [reflexivity|now rewrite IH]. Qed.

Lemma ljust_length (s : string) (w : nat) :
  (String.length s <= w)%nat -> String.length (ljust s w) = w.
Proof. intros H. unfold ljust. rewrite str_length_app, repeat_char_length. lia. Qed.

Lemma zip_ljust_lengths (row : list string) (ws : list nat) :
  Forall2 (fun cell w => (String.length cell <= w)%nat) row ws ->
  map String.length (zip_ljust row ws) = ws.
Proof.
  induction 1 as [|cell w row ws Hle _ IH]; cbn; [reflexivity|].
  rewrite ljust_length by exact Hle. f_equal. exact IH.
Qed.

Lemma repeat_lengths (a : ascii) (ws : list nat) :
  map String.length (map (repeat_char a) ws) = ws.
Proof.
  induction ws as [|w ws IH]; cbn; [reflexivity|]. rewrite repeat_char_length, IH. reflexivity.
Qed.

Lemma join_length (sep1 sep2 : string) (xs ys : list string) :
  String.length sep1 = String.length sep2 ->
  map String.length xs = map String.length ys ->
  String.length (join sep1 xs) = String.length (join sep2 ys).
Proof.
  intros Hs. revert ys. induction xs as [|x xs IH]; intros [|y ys] H; try discriminate;
    [reflexivity|].
  injection H as Hxy Hrest.
  destruct xs as [|x' xs'], ys as [|y' ys']; try discriminate; [exact Hxy|].
  change (join sep1 (x :: x' :: xs')) with (x ++ sep1 ++ join sep1 (x' :: xs'))%string.
  change (join sep2 (y :: y' :: ys')) with (y ++ sep2 ++ join sep2 (y' :: ys'))%string.
  rewrite !str_length_app, Hxy, Hs, (IH (y' :: ys') Hrest). reflexivity.
Qed.

Lemma fits_mono (row : list string) (ws1 ws2 : list nat) :
  Forall2 (fun cell w => (String.length cell <= w)%nat) row ws1 ->
  Forall2 (fun a b => (a <= b)%nat) ws1 ws2 ->
  Forall2 (fun cell w => (String.length cell <= w)%nat) row ws2.
Proof.
  intros H1. revert ws2. induction H1 as [|cell w row ws Hle _ IH]; intros ws2 H2;
    inversion H2; subst; constructor; [lia|auto].
Qed.

Lemma le_all_trans (ws1 ws2 ws3 : list nat) :
  Forall2 (fun a b => (a <= b)%nat) ws1 ws2 ->
  Forall2 (fun a b => (a <= b)%nat) ws2 ws3 ->
  Forall2 (fun a b => (a <= b)%nat) ws1 ws3.
Proof.
  intros H1. revert ws3. induction H1 as [|a b ws1 ws2 Hle _ IH]; intros ws3 H2;
    inversion H2; subst; constructor; [lia|auto].
Qed.

Lemma le_all_refl (ws : list nat) : Forall2 (fun a b => (a <= b)%nat) ws ws.
Proof. induction ws; constructor; [lia|assumption]. Qed.

Lemma fits_own_lengths (columns : list string) :
  Forall2 (fun cell w => (String.length cell <= w)%nat) columns (map String.length columns).
Proof. induction columns; constructor; [lia|assumption]. Qed.

Lemma widen_spec (ws : list nat) (row : list string) :
  length row = length ws ->
  exists ws', widen ws row = Some ws'
  /\ Forall2 (fun a b => (a <= b)%nat) ws ws'
  /\ Forall2 (fun cell w => (String.length cell <= w)%nat) row ws'.
Proof.
  revert ws. induction row as [|cell row IH]; intros [|w ws] H; try discriminate.
  - exists []. split; [reflexivity|]. split; constructor.
  - injection H as H. destruct (IH ws H) as [ws' [He [Hle Hfit]]].
    exists (Nat.max w (String.length cell) :: ws'). cbn. rewrite He.
    split; [reflexivity|]. split; constructor; auto; lia.
Qed.

Lemma widen_rows_spec (ws : list nat) (results : list (list string)) :
  Forall (fun row => length row = length ws) results ->
  exists ws', widen_rows ws results = Some ws'
  /\ Forall2 (fun a b => (a <= b)%nat) ws ws'
  /\ Forall (fun row => Forall2 (fun cell w => (String.length cell <= w)%nat) row ws') results.
Proof.
  revert ws. induction results as [|row rest IH]; intros ws H.
  - exists ws. split; [reflexivity|]. split; [apply le_all_refl|constructor].
  - inversion H as [|? ? Hrow Hrest]; subst.
    destruct (widen_spec ws row Hrow) as [w1 [He [Hle Hfit]]].
    assert (Hlen : length ws = length w1) by (eapply Forall2_length; eauto).
    rewrite Hlen in Hrest.
    destruct (IH w1 Hrest) as [w2 [He2 [Hle2 Hfit2]]].
    exists w2. cbn. rewrite He. split; [exact He2|].
    split; [eapply le_all_trans; eauto|].
    constructor; [eapply fits_mono; eauto|exact Hfit2].
Qed.

(** X14: when every row has as many cells as there are columns (as rows
    from the database cursor do), the console's result table is aligned:
    after the blank line and the banner, the header, the separator and one
    line per row all have the same length. *)
Theorem cli_table_aligned (columns : list string) (results : list (list string)) :
  Forall (fun row => length row = length columns) results ->
  exists body,
    cli_table columns results
    = Some (["" ; (repeat_char "=" 33 ++ " Execution Result " ++ repeat_char "=" 33)%string]
            ++ body)%list
    /\ length body = (2 + length results)%nat
    /\ Forall (fun line => String.length line = String.length (hd "" body)) body.
Proof.
  intros H.
  assert (H' : Forall (fun row => length row = length (map String.length columns)) results)
    by (rewrite length_map; exact H).
  destruct (widen_rows_spec _ _ H') as [ws [He [Hle Hfit]]].
  assert (Hcol : Forall2 (fun cell w => (String.length cell <= w)%nat) columns ws)
    by (eapply fits_mono; [apply fits_own_lengths|exact Hle]).
  unfold cli_table. rewrite He.
  exists (join " | " (zip_ljust columns ws) :: join "-+-" (map (repeat_char "-") ws)
          :: map (fun row => join " | " (zip_ljust row ws)) results).
  split; [reflexivity|]. split; [cbn; rewrite length_map; reflexivity|].
  cbn [hd]. constructor; [reflexivity|]. constructor.
  - apply join_length; [reflexivity|].
    rewrite repeat_lengths, (zip_ljust_lengths _ _ Hcol). reflexivity.
  - apply Forall_map. eapply Forall_impl; [|exact Hfit].
    intros row Hrow. apply join_length; [reflexivity|].
    rewrite (zip_ljust_lengths _ _ Hrow), (zip_ljust_lengths _ _ Hcol). reflexivity.
Qed.

(** ** Witnesses of the further properties *)

Lemma load_skill_tool_reads_repository_witness :
  invoke_tool (sample_db (DbOk None [])) (SkillRepository.skill_content sample_fs)
    (mkToolCall load_skill_name "legacy")
  = ("Error loading skill: "
     ++ ("'utf-8' codec can't decode byte 0xe9 in position 3: "
         ++ "unexpected end of data"))%string.
Proof.
  apply (proj1 (proj2 (load_skill_tool_reads_repository sample_fs (sample_db (DbOk None []))
                         "legacy" "Legacy" "caf?"
                         ("'utf-8' codec can't decode byte 0xe9 in position 3: "
                          ++ "unexpected end of data")))).
  - reflexivity.
  - reflexivity.
  - reflexivity.
  - right. split; reflexivity.
Defined.

Lemma listed_skill_get_witness :
  In (SkillRepository.mkSkill "sales_analytics" "Sales tables" "")
     (SkillRepository.list_skills sample_fs)
  /\ SkillRepository.get_skill sample_fs "sales_analytics"
     = Some (SkillRepository.mkSkill "sales_analytics" "Sales tables" (strip ("# orders" ++ nl))).
Proof.
  assert (H : In (SkillRepository.mkSkill "sales_analytics" "Sales tables" "")
                 (SkillRepository.list_skills sample_fs))
    by (vm_compute; left; reflexivity).
  split; [exact H|].
  apply (proj1 (listed_skill_get sample_fs _ H) ("# orders" ++ nl)).
  vm_compute. reflexivity.
Defined.

Lemma tool_node_database_use_witness :
  tool_node (sample_db (DbError "connection refused")) no_skills
    ([HumanMessage "show 3 orders"]
     ++ [AIMessage "" [mkToolCall load_skill_name "sales_analytics"; mkToolCall "drop_tables" ""]])%list
  = tool_node (sample_db (DbOk None [])) no_skills
      ([HumanMessage "show 3 orders"]
       ++ [AIMessage "" [mkToolCall load_skill_name "sales_analytics"; mkToolCall "drop_tables" ""]])%list.
Proof.
  assert (H : forall call,
               In call [mkToolCall load_skill_name "sales_analytics"; mkToolCall "drop_tables" ""] ->
               tc_name call <> execute_tool_name)
    by (intros call Hin; destruct Hin as [<-|[<-|[]]]; cbv; discriminate).
  apply (proj1 (tool_node_database_use (sample_db (DbError "connection refused"))
                  (sample_db (DbOk None [])) no_skills [HumanMessage "show 3 orders"] ""
                  [mkToolCall load_skill_name "sales_analytics"; mkToolCall "drop_tables" ""] H)).
Defined.

Lemma chat_starts_new_turn_witness :
  chat_prepare (mkCheckpoint [] None) "show 3 orders"
  = (mkCheckpoint [] None, Some [HumanMessage "show 3 orders"]).
Proof.
  apply (proj1 (chat_starts_new_turn (sample_llm "") "" (sample_db (DbOk None [])) no_skills
                  (mkCheckpoint [] None) "show 3 orders" eq_refl)).
Defined.

Lemma approve_error_keeps_pending_witness :
  approval (sample_llm "") "" (sample_db (DbError "relation does not exist")) no_skills
    (mkCheckpoint ([HumanMessage "show 3 orders"] ++ [AIMessage "```sql SELECT 1```" []])%list
                  (Some human_approval)) "approve" None
  = (Reply (mkResponse ("Error executing query: " ++ "relation does not exist") "done" None
                       (Some (extract_sql "```sql SELECT 1```"))),
     mkCheckpoint ([HumanMessage "show 3 orders"] ++ [AIMessage "```sql SELECT 1```" []])%list
                  (Some human_approval))
  /\ is_waiting (mkCheckpoint ([HumanMessage "show 3 orders"]
                               ++ [AIMessage "```sql SELECT 1```" []])%list
                              (Some human_approval)) = true.
Proof.
  apply (proj1 (approve_error_keeps_pending (sample_llm "") ""
                  (sample_db (DbError "relation does not exist")) no_skills
                  [HumanMessage "show 3 orders"] "```sql SELECT 1```" [] None
                  "relation does not exist" None [] "approve" None)).
  reflexivity.
Defined.

Lemma chat_auto_execute_outcomes_witness :
  let c := mkCheckpoint [] None in
  let r := stream (sample_llm "```sql SELECT 1```") "" (sample_db (DbError "down")) no_skills
                  (fst (chat_prepare c "show 3 orders")) (snd (chat_prepare c "show 3 orders")) in
  rr_status r = Interrupted
  /\ is_waiting (rr_state r) = true
  /\ fst (chat (sample_llm "```sql SELECT 1```") "" (sample_db (DbError "down")) no_skills
               c "show 3 orders" true)
     = Reply (mkResponse ("Error executing query (Auto-Mode): " ++ "down") "done" None
                         (Some "SELECT 1")).
Proof.
  intros c r.
  assert (H : rr_status r = Interrupted) by (vm_compute; reflexivity).
  split; [exact H|]. split; [|vm_compute; reflexivity].
  destruct (chat_auto_execute_outcomes (sample_llm "```sql SELECT 1```") ""
              (sample_db (DbError "down")) no_skills c "show 3 orders" H)
    as [pre [txt [_ [Hw _]]]].
  exact Hw.
Defined.

Lemma local_execution_matches_tool_witness :
  snd (fst (execute_query_locally (DbOk (Some ["n"]) [["1"]; ["2"]])))
  = Some (["n"], [["1"]; ["2"]])
  /\ snd (execute_query_locally (DbOk (Some ["n"]) [["1"]; ["2"]])) = None
  /\ ((length [["1"]; ["2"]] <= 10)%nat ->
      fst (fst (execute_query_locally (DbOk (Some ["n"]) [["1"]; ["2"]])))
      = execute_postgres_query (DbOk (Some ["n"]) [["1"]; ["2"]])).
Proof.
  apply (proj1 (proj2 (local_execution_matches_tool (DbOk (Some ["n"]) [["1"]; ["2"]])))
           ["n"] [["1"]; ["2"]]); [reflexivity|discriminate|discriminate].
Defined.

Lemma graph_never_raises_witness :
  rr_status (stream (sample_llm "```sql SELECT 1```") "" (sample_db (DbOk None [])) no_skills
                    (mkCheckpoint [] None) (Some [HumanMessage "show 3 orders"])) <> Raised
  /\ resumable (rr_state (stream (sample_llm "```sql SELECT 1```") "" (sample_db (DbOk None []))
                                 no_skills (mkCheckpoint [] None)
                                 (Some [HumanMessage "show 3 orders"]))) = true.
Proof.
  apply (proj2 (graph_never_raises (sample_llm "```sql SELECT 1```") "" (sample_db (DbOk None []))
                  no_skills (mkCheckpoint [] None) (Some [HumanMessage "show 3 orders"]) [])).
  reflexivity.
Defined.

Lemma cli_table_aligned_witness :
  exists body,
    cli_table ["id"; "customer_name"] [["1"; "Alice"]; ["22"; "Bartholomew Jones"]]
    = Some (["" ; (repeat_char "=" 33 ++ " Execution Result " ++ repeat_char "=" 33)%string]
            ++ body)%list
    /\ length body = (2 + length [["1"; "Alice"]; ["22"; "Bartholomew Jones"]])%nat
    /\ Forall (fun line => String.length line = String.length (hd "" body)) body.
Proof.
  apply cli_table_aligned. repeat constructor.
Defined.
